(** * Farc: frame routes, OG image route and developer preview

    A shallow embedding of [src/src/farc.tsx] (class [Farc]) and the
    properties of its route handlers.

    Layout of the development:
    - [Js]: the JavaScript built-ins the class calls and that are small
      enough to be written out ([String.prototype.replace] with a string
      pattern, truthiness of strings, hex conversion of byte arrays,
      [URLSearchParams], the value a [Headers] object accepts);
    - [Types], [Runtime], [Helpers], [Codec]: what [farc.tsx] imports and
      this development does not look into (type declarations of
      [./types.js], library functions, the sibling modules [./utils/*.js]
      and [./dev/*.js]), taken as parameters;
    - [Prog]: the effects of a handler (reads and writes of the [Farc]
      instance, awaited calls into the outside world) as a tree of events,
      and [run], which executes such a tree against an instance and a
      world and logs every event with its answer;
    - the constructor, [frame] and the five route handlers, transcribed
      from the source, and [Farc_fetch], which serves a request through
      the registered routes;
    - [Query] and [JsonCodec]: the reading of a query string, and the
      context codec as the specification describes it;
    - [Demo]: one instance of the parameters, to run everything on
      concrete requests;
    - the theorems, the numbered ones being the claims of the
      specification. *)

From Stdlib Require Import String Ascii List Bool Arith ZArith NArith Lia.
From Stdlib.Strings Require Import Byte.
From Stdlib Require Import DecimalString DecimalZ.
Import ListNotations.
Set Warnings "-register-all".
Local Open Scope list_scope.
Local Open Scope string_scope.

(* ===================================================================== *)
(** ** JavaScript built-ins written out *)
(* ===================================================================== *)

Module Js.

(** Truthiness of a string: every string but the empty one. *)
Definition truthy (s : string) : bool :=
  match s with
  | EmptyString => false
  | String _ _ => true
  end.

(** A template literal [`${x}`] over [string | undefined]. *)
Definition template (o : option string) : string :=
  match o with
  | Some s => s
  | None => "undefined"
  end.

Fixpoint drop (n : nat) (s : string) : string :=
  match n, s with
  | O, _ => s
  | S n', String _ r => drop n' r
  | S _, EmptyString => EmptyString
  end.

(** [s.replace(pat, rep)] for a string pattern: the first occurrence of
    [pat] in [s] is replaced, the rest of [s] is kept. *)
Fixpoint replace (pat rep s : string) : string :=
  if String.prefix pat s then rep ++ drop (String.length pat) s
  else match s with
       | EmptyString => EmptyString
       | String c r => String c (replace pat rep r)
       end.

(** *** Bytes and hexadecimal *)

Definition bytes := list byte.

Definition hex_digit (n : N) : ascii :=
  match n with
  | 0 => "0" | 1 => "1" | 2 => "2" | 3 => "3" | 4 => "4" | 5 => "5"
  | 6 => "6" | 7 => "7" | 8 => "8" | 9 => "9" | 10 => "a" | 11 => "b"
  | 12 => "c" | 13 => "d" | 14 => "e" | _ => "f"
  end%N%char.

Definition hex_value (c : ascii) : option N :=
  let n := N_of_ascii c in
  if ((48 <=? n) && (n <=? 57))%N then Some (n - 48)%N
  else if ((97 <=? n) && (n <=? 102))%N then Some (n - 87)%N
  else if ((65 <=? n) && (n <=? 70))%N then Some (n - 55)%N
  else None.

(** [bytesToHex] of [@noble/curves]: two lower-case digits per byte. *)
Fixpoint bytesToHex (b : bytes) : string :=
  match b with
  | [] => EmptyString
  | x :: r =>
      let n := Byte.to_N x in
      String (hex_digit (n / 16)) (String (hex_digit (n mod 16)) (bytesToHex r))
  end.

(** [Buffer.from(s, 'hex')]: pairs of hex digits, up to the first pair that
    is not one. *)
Fixpoint Buffer_from_hex (s : string) : bytes :=
  match s with
  | String a (String b r) =>
      match hex_value a, hex_value b with
      | Some x, Some y =>
          byte_of_ascii (ascii_of_N (16 * x + y)) :: Buffer_from_hex r
      | _, _ => []
      end
  | _ => []
  end.

(** [Buffer.from(s)] and [buf.toString('utf-8')]: strings are kept as their
    byte sequences, so both are the identity on the bytes. *)
Definition Buffer_from (s : string) : bytes := list_byte_of_string s.
Definition Buffer_toString (b : bytes) : string := string_of_list_byte b.

(** *** URLSearchParams *)

(** The parameters in insertion order. *)
Definition URLSearchParams := list (string * string).

Fixpoint lookup (k : string) (ps : list (string * string)) : option string :=
  match ps with
  | [] => None
  | (k', v) :: r => if String.eqb k k' then Some v else lookup k r
  end.

(** [params.set(k, v)]: the first entry named [k] gets the value [v] and
    the other entries named [k] are removed; with no such entry, [(k, v)]
    is appended. *)
Fixpoint remove_key (k : string) (ps : URLSearchParams) : URLSearchParams :=
  match ps with
  | [] => []
  | (k', v') :: r =>
      if String.eqb k k' then remove_key k r else (k', v') :: remove_key k r
  end.

Fixpoint set (k v : string) (ps : URLSearchParams) : URLSearchParams :=
  match ps with
  | [] => [(k, v)]
  | (k', v') :: r =>
      if String.eqb k k' then (k, v) :: remove_key k r
      else (k', v') :: set k v r
  end.

(** The application/x-www-form-urlencoded byte serializer: letters, digits
    and [*-._] stay, a space becomes [+], any other byte becomes [%XX]. *)
Definition form_safe (c : ascii) : bool :=
  let n := N_of_ascii c in
  (((48 <=? n) && (n <=? 57)) || ((65 <=? n) && (n <=? 90))
   || ((97 <=? n) && (n <=? 122))
   || (n =? 42) || (n =? 45) || (n =? 46) || (n =? 95))%N.

Definition upper_hex_digit (n : N) : ascii :=
  match n with
  | 0 => "0" | 1 => "1" | 2 => "2" | 3 => "3" | 4 => "4" | 5 => "5"
  | 6 => "6" | 7 => "7" | 8 => "8" | 9 => "9" | 10 => "A" | 11 => "B"
  | 12 => "C" | 13 => "D" | 14 => "E" | _ => "F"
  end%N%char.

Definition percent (c : ascii) : string :=
  let n := N_of_ascii c in
  String "%" (String (upper_hex_digit (n / 16))
                     (String (upper_hex_digit (n mod 16)) EmptyString)).

Fixpoint form_encode (s : string) : string :=
  match s with
  | EmptyString => EmptyString
  | String c r =>
      if form_safe c then String c (form_encode r)
      else if Ascii.eqb c " " then String "+" (form_encode r)
      else percent c ++ form_encode r
  end.

Fixpoint join (sep : string) (parts : list string) : string :=
  match parts with
  | [] => EmptyString
  | [p] => p
  | p :: r => p ++ sep ++ join sep r
  end.

(** [params.toString()]. *)
Definition toString (ps : URLSearchParams) : string :=
  join "&" (map (fun kv => form_encode (fst kv) ++ "=" ++ form_encode (snd kv)) ps).

(** *** Header values *)

(** Strings are kept as the bytes of their UTF-8 encoding: a character
    up to U+007F is one byte, a character up to U+00FF starts with the
    byte 0xC2 or 0xC3, and a character above U+00FF starts with a byte
    from 0xC4 on. *)

(** HTTP whitespace: tab, line feed, carriage return and space. *)
Definition http_whitespace (c : ascii) : bool :=
  let n := N_of_ascii c in
  ((n =? 9) || (n =? 10) || (n =? 13) || (n =? 32))%N.

Fixpoint strip_leading (s : string) : string :=
  match s with
  | EmptyString => EmptyString
  | String c r => if http_whitespace c then strip_leading r else s
  end.

Fixpoint strip_trailing (s : string) : string :=
  match s with
  | EmptyString => EmptyString
  | String c r =>
      match strip_trailing r with
      | EmptyString =>
          if http_whitespace c then EmptyString else String c EmptyString
      | kept => String c kept
      end
  end.

(** A byte a header value may hold: not NUL, not a line feed, not a
    carriage return, and no byte of a character above U+00FF. *)
Definition header_byte (c : ascii) : bool :=
  let n := N_of_ascii c in
  (negb (n =? 0) && negb (n =? 10) && negb (n =? 13) && (n <? 196))%N.

Fixpoint every (f : ascii -> bool) (s : string) : bool :=
  match s with
  | EmptyString => true
  | String c r => f c && every f r
  end.

(** Does the string start, or end, with HTTP whitespace? *)
Definition starts_blank (s : string) : bool :=
  match s with
  | EmptyString => false
  | String c _ => http_whitespace c
  end.

Fixpoint ends_blank (s : string) : bool :=
  match s with
  | EmptyString => false
  | String c EmptyString => http_whitespace c
  | String _ r => ends_blank r
  end.

(** [headers.set(name, value)] of the Fetch standard, on the value: HTTP
    whitespace is stripped from both ends, and what is left is stored if
    it is a header value; otherwise the call throws a [TypeError]
    ([None]). *)
Definition Headers_value (value : string) : option string :=
  let normalized := strip_trailing (strip_leading value) in
  if every header_byte normalized then Some normalized else None.

End Js.

(* ===================================================================== *)
(** ** What farc.tsx imports and does not define *)
(* ===================================================================== *)

(** The method of a request. *)
Inductive Method : Type := GET | POST | PUT | DELETE | PATCH | OPTIONS | HEAD.

(** The method a route is registered under. hono's [use] registers under
    ALL, [get] under GET and [post] under POST. *)
Inductive RouteMethod : Type := ALL | Only (m : Method).

Definition Method_eqb (a b : Method) : bool :=
  match a, b with
  | GET, GET | POST, POST | PUT, PUT | DELETE, DELETE
  | PATCH, PATCH | OPTIONS, OPTIONS | HEAD, HEAD => true
  | _, _ => false
  end.

(** The types [farc.tsx] takes from its type parameters, from [./types.js]
    and from the libraries, with the members the source reads. *)
Class Types : Type := {
  (** the type parameter [state] and the truthiness of its values *)
  State : Type;
  state_truthy : State -> bool;
  (** [FrameContext<path, state>]: [context.url] and [context.deriveState()] *)
  FrameContext : Type;
  ctx_url : FrameContext -> string;
  ctx_deriveState : FrameContext -> State;
  (** an element of [FrameIntents] *)
  Intent : Type;
  (** the handler functions given to [frame] *)
  Handler : Type;
  (** hono's [HonoOptions] *)
  HonoOptions : Type;
  (** results of [htmlToFrame], [htmlToState], [inspectRoutes], [getRoutes] *)
  FrameInfo : Type;
  StateInfo : Type;
  InspectedRoutes : Type;
  RoutesInfo : Type;
  (** JavaScript numbers that are not literals of the source *)
  JsNumber : Type;
  (** what a helper that throws throws *)
  JsError : Type;
  (** [@farcaster/core]: a frame action body as [FrameActionBody.create]
      returns it, a signed message and the error of a failed result *)
  FrameActionBody : Type;
  Message : Type;
  msg_hash : Message -> Js.bytes;
  msg_data_timestamp : Message -> JsNumber;
  HubError : Type
}.

Section Data.
Context {T : Types}.

(** *** JSX *)

Record DevProps : Type := {
  dev_baseUrl : string;
  dev_frame : FrameInfo;
  dev_routes : RoutesInfo;
  dev_state : StateInfo
}.

Record PreviewProps : Type := {
  preview_baseUrl : string;
  preview_error : option string;
  preview_frame : FrameInfo;
  preview_routes : RoutesInfo;
  preview_state : StateInfo
}.

(** The components of [./dev/components.js], kept as calls with their
    props. *)
Inductive Component : Type :=
| Style
| Dev (props : DevProps)
| Preview (props : PreviewProps).

Inductive PropValue : Type :=
| PStr (s : string)
| PStyle (declarations : list (string * string)).

Inductive Node : Type :=
| Element (tag : string) (props : list (string * PropValue)) (children : list Node)
| Text (s : string)
| Comp (c : Component).

(** *** Contexts *)

(** Modelled from the spec: the PreviousFrameContext type of [./types.js],
    "the prior request's context plus the previously computed state
    snapshot and parsed intents". It is also the shape of the object
    literal [{...context, intents, previousState}] that the frame route
    serializes. *)
Record PreviousFrameContext : Type := {
  prev_context : FrameContext;
  prev_intents : option (list Node);
  prev_previousState : State
}.

(** The two type arguments [serializeJson] and [deserializeJson] are used
    at. *)
Inductive Shape : Type := TContext | TPrevious.

Definition shape_type (s : Shape) : Type :=
  match s with
  | TContext => FrameContext
  | TPrevious => PreviousFrameContext
  end.

Record FrameHandlerReturnType : Type := {
  action : option string;
  image : Node;
  imageAspectRatio : option string;
  intents : option (list Intent)
}.

(** *** hono *)

(** A call returns or throws; an awaited promise resolves or rejects. *)
Inductive Completion (A : Type) : Type :=
| Normal (a : A)
| Abrupt (e : JsError).

Record HonoRequest : Type := {
  req_method : Method;
  req_url : string;
  (** [c.req.query()] *)
  req_query : list (string * string);
  (** [await c.req.formData()]: the fields of the form when the body of
      the request is form data, a rejection when it is not. The fields
      are text: the handler reads every one of them [as string]. *)
  req_formData : Completion (list (string * string))
}.

(** The closures [frame] registers; each one captures [this], and the two
    first ones the handler. *)
Inductive RouteHandler : Type :=
| FramePage (handler : Handler)
| OgImage (handler : Handler)
| DevRenderer
| DevGet
| DevPost.

Record Route : Type := {
  route_method : RouteMethod;
  route_path : string;
  route_handler : RouteHandler
}.

Record Hono : Type := {
  hono_options : option HonoOptions;
  hono_basePath : string;
  (** the private [#path]: the path of the last registration *)
  hono_path : string;
  hono_routes : list Route
}.

Inductive Renderer : Type :=
| DefaultRenderer
| DevLayout (req : HonoRequest).

Record Context : Type := {
  c_req : HonoRequest;
  c_renderer : Renderer
}.

Inductive Response : Type :=
| Html (document : Node)
| Redirect (location : string)
| ImageResponse (element : Node)
| NotFound
(** [new Response(null, response)]: the status and the headers of a
    response, without its body *)
| WithoutBody (response : Response).

(** *** The instance *)

Record Farc : Type := {
  initialState : option State;
  hono : Hono
}.

Record FarcConstructorParameters : Type := {
  param_basePath : option string;
  param_honoOptions : option HonoOptions;
  param_initialState : option State
}.

(** *** Awaited calls *)

Record GetFrameContextParameters : Type := {
  gfc_context : FrameContext;
  gfc_initialState : option State;
  gfc_previousContext : option PreviousFrameContext;
  gfc_request : HonoRequest
}.

Record RequestInit : Type := {
  init_method : string;
  init_body : string
}.

Record FetchResponse : Type := {
  status : Z;
  statusText : string;
  (** what [await response.text()] gives *)
  body : string
}.

Record CastId : Type := {
  castId_fid : Z;
  castId_hash : Js.bytes
}.

(** The object literal given to [FrameActionBody.create]. *)
Record PartialFrameActionBody : Type := {
  fab_url : Js.bytes;
  fab_buttonIndex : JsNumber;
  fab_castId : CastId;
  fab_inputText : option Js.bytes
}.

Record MessageDataOptions : Type := {
  data_fid : Z;
  data_network : Z
}.

Inductive Signer : Type :=
| NobleEd25519Signer (privateKey : Js.bytes).

Inductive HubResult (A : Type) : Type :=
| Ok (value : A)
| Err (error : HubError).

(** The body of the simulated callback request. *)
Record UntrustedData : Type := {
  ud_buttonIndex : JsNumber;
  ud_castId_fid : Z;
  ud_castId_hash : string;
  ud_fid : Z;
  ud_inputText : option string;
  ud_messageHash : string;
  ud_network : Z;
  ud_timestamp : JsNumber;
  ud_url : string
}.

Record TrustedData : Type := {
  td_messageBytes : string
}.

Record FramePost : Type := {
  untrustedData : UntrustedData;
  trustedData : TrustedData
}.

End Data.

Arguments Normal {T A} a.
Arguments Abrupt {T A} e.
Arguments Ok {T A} value.
Arguments Err {T A} error.

(** Library functions and built-ins whose results the class only passes
    on. *)
Class Runtime {T : Types} : Type := {
  (** [new URL(u).origin] and [new URL(u).pathname] *)
  URL_origin : string -> string;
  URL_pathname : string -> string;
  parseInt : string -> JsNumber;
  JSON_stringify : FramePost -> string;
  (** [FrameActionBody.create(base)] of [@farcaster/core] *)
  FrameActionBody_create : PartialFrameActionBody -> FrameActionBody;
  (** [Message.encode(m).finish()] *)
  Message_encode : Message -> Js.bytes;
  (** hono's [mergePath] of a base path and a route path *)
  mergePath : string -> string -> string;
  (** [inspectRoutes] of [hono/dev] *)
  inspectRoutes : Hono -> InspectedRoutes
}.

(** The synchronous functions of [./utils/*.js] and [./dev/utils.js]. *)
Class Helpers {T : Types} : Type := {
  parsePath : string -> string;
  parseIntents : list Intent -> list Node;
  htmlToFrame : string -> FrameInfo;
  htmlToState : string -> StateInfo;
  getRoutes : string -> InspectedRoutes -> RoutesInfo
}.

(** [./utils/serializeJson.js] and [./utils/deserializeJson.js], at the type
    arguments of the source. [deserializeJson] reads text that comes from
    the client: it returns a value or throws. It is also called with an
    absent query parameter (image route). *)
Class Codec {T : Types} : Type := {
  serializeJson : forall s : Shape, shape_type s -> string;
  deserializeJson : forall s : Shape, option string -> Completion (shape_type s)
}.

(* ===================================================================== *)
(** ** Effects *)
(* ===================================================================== *)

Section Effects.
Context {T : Types}.

(** What a method or a route handler does besides computing: it reads and
    writes the fields of [this], and it awaits calls whose results come
    from outside [farc.tsx]. *)
Inductive Event : Type :=
| ThisInitialState                       (* this.#initialState *)
| SetInitialState (s : State)            (* this.#initialState = s *)
| ThisHono                               (* this.hono *)
| SetHono (h : Hono)                     (* this.hono after a registration *)
| RequestToContext (req : HonoRequest)
| GetFrameContext (parameters : GetFrameContextParameters)
| CallHandler (handler : Handler) (context : FrameContext)
              (previousContext : option PreviousFrameContext)
| Fetch (input : option string) (init : option RequestInit)
| RandomPrivateKey                       (* ed25519.utils.randomPrivateKey() *)
| MakeFrameAction (body : FrameActionBody) (options : MessageDataOptions)
                  (signer : Signer).

Definition answer (e : Event) : Type :=
  match e with
  | ThisInitialState => option State
  | SetInitialState _ => unit
  | ThisHono => Hono
  | SetHono _ => unit
  | RequestToContext _ => FrameContext
  | GetFrameContext _ => FrameContext
  | CallHandler _ _ _ => FrameHandlerReturnType
  | Fetch _ _ => FetchResponse
  | RandomPrivateKey => Js.bytes
  | MakeFrameAction _ _ _ => HubResult Message
  end.

(** What a handler can throw (no handler catches anything):
    [_unsafeUnwrap()] of an error result; what [deserializeJson] threw or
    [c.req.formData()] rejected with; the [TypeError] of a built-in that
    refuses its argument ([fetch] without a URL, a [Location] that is no
    header value). *)
Inductive Exn : Type :=
| UnsafeUnwrap (e : HubError)
| Raised (e : JsError)
| TypeError.

Inductive Prog (A : Type) : Type :=
| Ret (a : A)
| Throw (x : Exn)
| Vis (e : Event) (k : answer e -> Prog A).

Arguments Ret {A} a.
Arguments Throw {A} x.
Arguments Vis {A} e k.

Fixpoint bind {A B : Type} (p : Prog A) (f : A -> Prog B) : Prog B :=
  match p with
  | Ret a => f a
  | Throw x => Throw x
  | Vis e k => Vis e (fun a => bind (k a) f)
  end.

Definition trigger (e : Event) : Prog (answer e) := Vis e (fun a => Ret a).

(** *** Running a program *)

(** An event with the answer it got. *)
Definition Entry : Type := { e : Event & answer e }.

Definition entry (e : Event) (a : answer e) : Entry := existT answer e a.

(** The world outside [farc.tsx]: it answers an awaited call knowing
    everything that happened before. *)
Definition World : Type := list Entry -> forall e : Event, answer e.

Inductive Outcome (A : Type) : Type :=
| Returned (a : A)
| Thrown (x : Exn).

Arguments Returned {A} a.
Arguments Thrown {A} x.

Record Result (A : Type) : Type := {
  final : Farc;
  log : list Entry;
  outcome : Outcome A
}.

Arguments final {A} r.
Arguments log {A} r.
Arguments outcome {A} r.

(** One event against the instance [self]: the fields of [this] are read
    and written in [self], everything else is answered by the world. The
    world has no hold on [self]: what the user's handler or a library does
    on its own side is not part of the model. A [Fetch] event is a call of
    [fetch] with the text of a URL, and the world answers it with a
    response: a request that fails on the way is not part of the
    model. *)
Definition perform (w : World) (self : Farc) (l : list Entry) (e : Event)
  : answer e * Farc :=
  match e as e0 return answer e0 * Farc with
  | ThisInitialState => (initialState self, self)
  | SetInitialState s => (tt, {| initialState := Some s; hono := hono self |})
  | ThisHono => (hono self, self)
  | SetHono h => (tt, {| initialState := initialState self; hono := h |})
  | RequestToContext req => (w l (RequestToContext req), self)
  | GetFrameContext p => (w l (GetFrameContext p), self)
  | CallHandler h c p => (w l (CallHandler h c p), self)
  | Fetch i o => (w l (Fetch i o), self)
  | RandomPrivateKey => (w l RandomPrivateKey, self)
  | MakeFrameAction b o s => (w l (MakeFrameAction b o s), self)
  end.

Fixpoint run_from {A : Type} (w : World) (p : Prog A) (self : Farc)
  (l : list Entry) : Result A :=
  match p with
  | Ret a => {| final := self; log := l; outcome := Returned a |}
  | Throw x => {| final := self; log := l; outcome := Thrown x |}
  | Vis e k =>
      let '(a, self') := perform w self l e in
      run_from w (k a) self' (l ++ [entry e a])%list
  end.

Definition run {A : Type} (w : World) (p : Prog A) (self : Farc) : Result A :=
  run_from w p self [].

End Effects.

Arguments Ret {T A} a.
Arguments Throw {T A} x.
Arguments Vis {T A} e k.
Arguments Returned {T A} a.
Arguments Thrown {T A} x.
Arguments final {T A} r.
Arguments log {T A} r.
Arguments outcome {T A} r.

Declare Scope prog_scope.
Delimit Scope prog_scope with prog.
Notation "x <- p ;; q" := (bind p (fun x => q))
  (at level 61, p at next level, right associativity) : prog_scope.
Notation "p ;; q" := (bind p (fun _ => q))
  (at level 61, right associativity) : prog_scope.

(* ===================================================================== *)
(** ** The class [Farc] *)
(* ===================================================================== *)

Section FarcClass.
Context {T : Types} {R : Runtime} {H : Helpers} {C : Codec}.
Local Open Scope prog_scope.

(** *** hono's registration methods *)

Definition new_Hono (options : option HonoOptions) : Hono :=
  {| hono_options := options; hono_basePath := "/"; hono_path := "/";
     hono_routes := [] |}.

(** [app.basePath(path)]: a copy whose base path is extended. *)
Definition Hono_basePath (path : string) (app : Hono) : Hono :=
  {| hono_options := hono_options app;
     hono_basePath := mergePath (hono_basePath app) path;
     hono_path := hono_path app;
     hono_routes := hono_routes app |}.

Definition addRoute (m : RouteMethod) (path : string) (h : RouteHandler)
  (app : Hono) : Hono :=
  {| hono_options := hono_options app;
     hono_basePath := hono_basePath app;
     hono_path := path;
     hono_routes :=
       (hono_routes app ++
        [{| route_method := m;
            route_path := mergePath (hono_basePath app) path;
            route_handler := h |}])%list |}.

(** [app.use(path, h)], [app.get(path, h)], and the chained [.get(h)] and
    [.post(h)], which register at the path of the call before them. *)
Definition Hono_use (path : string) (h : RouteHandler) (app : Hono) : Hono :=
  addRoute ALL path h app.

Definition Hono_get_at (path : string) (h : RouteHandler) (app : Hono) : Hono :=
  addRoute (Only GET) path h app.

Definition Hono_get (h : RouteHandler) (app : Hono) : Hono :=
  addRoute (Only GET) (hono_path app) h app.

Definition Hono_post (h : RouteHandler) (app : Hono) : Hono :=
  addRoute (Only POST) (hono_path app) h app.

(** *** The constructor *)

(** The instance when the constructor body starts: the field initializer
    has set [#initialState] to [undefined]; [hono] is assigned by the first
    statement (an empty router stands for the unassigned field). *)
Definition blank : Farc :=
  {| initialState := None; hono := new_Hono None |}.

Definition constructor (p : FarcConstructorParameters) : Prog unit :=
  trigger (SetHono (new_Hono (param_honoOptions p))) ;;
  (match param_basePath p with
   | Some basePath =>
       if Js.truthy basePath then
         app <- trigger ThisHono ;;
         trigger (SetHono (Hono_basePath basePath app))
       else Ret tt
   | None => Ret tt
   end) ;;
  match param_initialState p with
  | Some s => if state_truthy s then trigger (SetInitialState s) else Ret tt
  | None => Ret tt
  end.

(** *** [frame]: registration *)

Definition frame (path : string) (handler : Handler) : Prog unit :=
  (* Frame Route (implements GET & POST). *)
  app <- trigger ThisHono ;;
  trigger (SetHono (Hono_use (parsePath path) (FramePage handler) app)) ;;
  (* OG Image Route *)
  app <- trigger ThisHono ;;
  trigger (SetHono
    (Hono_get_at (parsePath path ++ "/image") (OgImage handler) app)) ;;
  (* Frame Dev Routes *)
  app <- trigger ThisHono ;;
  trigger (SetHono
    (Hono_post DevPost
      (Hono_get DevGet
        (Hono_use (parsePath path ++ "/dev") DevRenderer app)))).

(** *** [c.render], [c.redirect] and [fetch] *)

Definition meta (property content : string) : Node :=
  Element "meta" [("property", PStr property); ("content", PStr content)] [].

(** The layout the dev middleware installs with [jsxRenderer]. *)
Definition devLayout (req : HonoRequest) (children : Node) : Node :=
  let path := Js.replace "/dev" "" (URL_pathname (req_url req)) in
  Element "html" [("lang", PStr "en")]
    [ Element "head" []
        [ Element "title" []
            [Text "𝑭𝒂𝒓𝒄 "; Text (if Js.truthy path then path else "/")];
          Comp Style;
          Element "script"
            [("src", PStr "https://unpkg.com/htmx.org@1.9.10");
             ("integrity",
              PStr "sha384-D1Kt99CQMDuVetoL1lrYwg5t+9QdHe7NLX/SoJYkXDFfX37iInKRy5xLSi8nO7UC");
             ("crossorigin", PStr "anonymous")] [] ];
      Element "body" [] [children] ].

Definition render (c : Context) (content : Node) : Response :=
  match c_renderer c with
  | DefaultRenderer => Html content
  | DevLayout req => Html (devLayout req content)
  end.

(** [c.redirect(location)]: hono sets the [Location] header of the
    response with [headers.set], which throws when the location is no
    header value. *)
Definition redirect (location : string) : Prog Response :=
  match Js.Headers_value location with
  | Some value => Ret (Redirect value)
  | None => Throw TypeError
  end.

(** [fetch(input, init)]: with no URL to parse ([formData.get] gave
    [null]) the promise rejects and nothing is sent. *)
Definition fetch (input : option string) (init : option RequestInit)
  : Prog FetchResponse :=
  match input with
  | Some _ => trigger (Fetch input init)
  | None => Throw TypeError
  end.

(** *** The frame route *)

(** A call that may throw, in a handler that catches nothing. *)
Definition completion {A : Type} (r : Completion A) : Prog A :=
  match r with
  | Normal a => Ret a
  | Abrupt e => Throw (Raised e)
  end.

(** [query.previousContext ? deserializeJson(query.previousContext) :
    undefined], as both the frame route and the image route compute it. *)
Definition decodePrevious (query : list (string * string))
  : Completion (option PreviousFrameContext) :=
  match Js.lookup "previousContext" query with
  | Some q =>
      if Js.truthy q then
        match deserializeJson TPrevious (Some q) with
        | Normal previous => Normal (Some previous)
        | Abrupt e => Abrupt e
        end
      else Normal None
  | None => Normal None
  end.

(** The children of [<head>] of the frame page. *)
Definition frameHead (query : list (string * string)) (baseUrl : string)
  (context : FrameContext) (r : FrameHandlerReturnType) : list Node :=
  let parsedIntents :=
    match intents r with
    | Some i => Some (parseIntents i)
    | None => None
    end in
  let serializedContext := serializeJson TContext context in
  let serializedPreviousContext :=
    serializeJson TPrevious
      {| prev_context := context;
         prev_intents := parsedIntents;
         prev_previousState := ctx_deriveState context |} in
  let ogSearch : Js.URLSearchParams := [] in
  let ogSearch :=
    match Js.lookup "previousContext" query with
    | Some q => if Js.truthy q then Js.set "previousContext" q ogSearch
                else ogSearch
    | None => ogSearch
    end in
  let ogSearch :=
    if Js.truthy serializedContext
    then Js.set "context" serializedContext ogSearch else ogSearch in
  let postSearch : Js.URLSearchParams := [] in
  let postSearch :=
    if Js.truthy serializedPreviousContext
    then Js.set "previousContext" serializedPreviousContext postSearch
    else postSearch in
  ([ meta "fc:frame" "vNext";
     meta "fc:frame:image"
       (parsePath (ctx_url context) ++ "/image?" ++ Js.toString ogSearch);
     meta "fc:frame:image:aspect_ratio"
       (match imageAspectRatio r with
        | Some ratio => ratio
        | None => "1.91:1"
        end);
     meta "og:image"
       (parsePath (ctx_url context) ++ "/image?" ++ Js.toString ogSearch);
     meta "fc:frame:post_url"
       ((match action r with
         | Some a => if Js.truthy a then baseUrl ++ parsePath a
                     else ctx_url context
         | None => ctx_url context
         end) ++ "?" ++ Js.toString postSearch) ]
   ++ (match parsedIntents with
       | Some nodes => nodes
       | None => []
       end)
   ++ [ meta "farc:context" serializedContext ]
   ++ (match Js.lookup "previousContext" query with
       | Some q => if Js.truthy q then [ meta "farc:prev_context" q ] else []
       | None => []
       end))%list.

Definition frameDocument (query : list (string * string)) (baseUrl : string)
  (context : FrameContext) (r : FrameHandlerReturnType) : Node :=
  Element "html" [("lang", PStr "en")]
    [ Element "head" [] (frameHead query baseUrl context r);
      Element "body"
        [("style",
          PStyle [("alignItems", "center"); ("display", "flex");
                  ("justifyContent", "center"); ("minHeight", "100vh");
                  ("overflow", "hidden")])]
        [ Element "a"
            [("style", PStyle [("textDecoration", "none")]);
             ("href", PStr (ctx_url context ++ "/dev"))]
            [Text "view 𝒇𝒓𝒂𝒎𝒆"] ] ].

Definition framePage (handler : Handler) (c : Context) : Prog Response :=
  let query := req_query (c_req c) in
  let baseUrl := URL_origin (req_url (c_req c)) ++ URL_pathname (req_url (c_req c)) in
  previousContext <- completion (decodePrevious query) ;;
  requestContext <- trigger (RequestToContext (c_req c)) ;;
  state <- trigger ThisInitialState ;;
  context <- trigger (GetFrameContext
    {| gfc_context := requestContext;
       gfc_initialState := state;
       gfc_previousContext := previousContext;
       gfc_request := c_req c |}) ;;
  if negb (String.eqb (ctx_url context) (parsePath (req_url (c_req c)))) then
    redirect
      (ctx_url context ++ "?previousContext="
       ++ Js.template (Js.lookup "previousContext" query))
  else
    r <- trigger (CallHandler handler context previousContext) ;;
    Ret (render c (frameDocument query baseUrl context r)).

(** *** The OG image route *)

Definition ogImage (handler : Handler) (c : Context) : Prog Response :=
  let query := req_query (c_req c) in
  previousContext <- completion (decodePrevious query) ;;
  queryContext <- completion (deserializeJson TContext (Js.lookup "context" query)) ;;
  state <- trigger ThisInitialState ;;
  context <- trigger (GetFrameContext
    {| gfc_context := queryContext;
       gfc_initialState := state;
       gfc_previousContext := previousContext;
       gfc_request := c_req c |}) ;;
  r <- trigger (CallHandler handler context previousContext) ;;
  Ret (ImageResponse (image r)).

(** *** The developer preview routes *)

(** The middleware registered with [use]: it installs the layout and calls
    [next]. *)
Definition devRenderer (c : Context) (next : Context -> Prog Response)
  : Prog Response :=
  next {| c_req := c_req c; c_renderer := DevLayout (c_req c) |}.

Definition devGet (c : Context) : Prog Response :=
  let baseUrl := Js.replace "/dev" "" (req_url (c_req c)) in
  response <- fetch (Some baseUrl) None ;;
  let text := body response in
  let frame := htmlToFrame text in
  let state := htmlToState text in
  app <- trigger ThisHono ;;
  let routes := getRoutes baseUrl (inspectRoutes app) in
  Ret (render c (Comp (Dev
    {| dev_baseUrl := baseUrl; dev_frame := frame;
       dev_routes := routes; dev_state := state |}))).

(** [result._unsafeUnwrap()] *)
Definition unsafeUnwrap {A : Type} (r : HubResult A) : Prog A :=
  match r with
  | Ok v => Ret v
  | Err e => Throw (UnsafeUnwrap e)
  end.

(** The cast id of the simulated action. *)
Definition devCastId : CastId :=
  {| castId_fid := 2;
     castId_hash :=
       Js.Buffer_from_hex "0000000000000000000000000000000000000000" |}.

(** The object [FrameActionBody.create] is called with, for the form
    [formData] of the request. *)
Definition devFrameActionBase (c : Context)
  (formData : list (string * string)) : PartialFrameActionBody :=
  let baseUrl := Js.replace "/dev" "" (req_url (c_req c)) in
  {| fab_url := Js.Buffer_from baseUrl;
     fab_buttonIndex :=
       parseInt (match Js.lookup "buttonIndex" formData with
                 | Some s => s
                 | None => ""
                 end);
     fab_castId := devCastId;
     fab_inputText :=
       match Js.lookup "inputText" formData with
       | Some s => if Js.truthy s then Some (Js.Buffer_from s) else None
       | None => None
       end |}.

Definition devFrameActionBody (c : Context)
  (formData : list (string * string)) : FrameActionBody :=
  FrameActionBody_create (devFrameActionBase c formData).

(** The object given to [JSON.stringify] for the callback request: it is
    built from the same [buttonIndex] and [inputText] as the object given
    to [FrameActionBody.create]. *)
Definition devFramePost (c : Context) (formData : list (string * string))
  (message : Message) : FramePost :=
  let body := devFrameActionBase c formData in
  {| untrustedData :=
       {| ud_buttonIndex := fab_buttonIndex body;
          ud_castId_fid := castId_fid devCastId;
          ud_castId_hash := "0x" ++ Js.bytesToHex (castId_hash devCastId);
          ud_fid := 2;
          ud_inputText :=
            match fab_inputText body with
            | Some b => Some (Js.Buffer_toString b)
            | None => None
            end;
          ud_messageHash := "0x" ++ Js.bytesToHex (msg_hash message);
          ud_network := 1;
          ud_timestamp := msg_data_timestamp message;
          ud_url := Js.replace "/dev" "" (req_url (c_req c)) |};
     trustedData :=
       {| td_messageBytes := Js.bytesToHex (Message_encode message) |} |}.

Definition devPost (c : Context) : Prog Response :=
  let baseUrl := Js.replace "/dev" "" (req_url (c_req c)) in
  formData <- completion (req_formData (c_req c)) ;;
  let postUrl := Js.lookup "postUrl" formData in
  privateKeyBytes <- trigger RandomPrivateKey ;;
  let fid := 2%Z in
  let frameActionBody := devFrameActionBody c formData in
  frameActionMessage <- trigger (MakeFrameAction frameActionBody
    {| data_fid := fid; data_network := 1 |}
    (NobleEd25519Signer privateKeyBytes)) ;;
  message <- unsafeUnwrap frameActionMessage ;;
  response <- fetch postUrl (Some
    {| init_method := "POST";
       init_body := JSON_stringify (devFramePost c formData message) |}) ;;
  (* fetch initial state on error *)
  let error :=
    if negb (status response =? 200)%Z then Some (statusText response)
    else None in
  response <- (if negb (status response =? 200)%Z
               then fetch (Some baseUrl) None
               else Ret response) ;;
  let text := body response in
  let frame := htmlToFrame text in
  let state := htmlToState text in
  app <- trigger ThisHono ;;
  let routes := getRoutes baseUrl (inspectRoutes app) in
  Ret (render c (Comp (Preview
    {| preview_baseUrl := baseUrl; preview_error := error;
       preview_frame := frame; preview_routes := routes;
       preview_state := state |}))).

(** *** Serving a request *)

Definition runHandler (h : RouteHandler) (c : Context)
  (next : Context -> Prog Response) : Prog Response :=
  match h with
  | FramePage handler => framePage handler c
  | OgImage handler => ogImage handler c
  | DevRenderer => devRenderer c next
  | DevGet => devGet c
  | DevPost => devPost c
  end.

Definition method_matches (m : Method) (rm : RouteMethod) : bool :=
  match rm with
  | ALL => true
  | Only m' => Method_eqb m m'
  end.

(** A route answers a request dispatched under its method (any method
    for ALL) whose path is the route's path. Route paths are literal
    here: hono's patterns (parameters, wildcards) are not modelled. *)
Definition serves (m : Method) (path : string) (r : Route) : bool :=
  method_matches m (route_method r) && String.eqb path (route_path r).

(** hono runs the matching handlers in registration order; a handler that
    does not call [next] ends the chain. *)
Fixpoint compose (hs : list RouteHandler) (c : Context) : Prog Response :=
  match hs with
  | [] => Ret NotFound
  | h :: rest => runHandler h c (compose rest)
  end.

(** hono's [dispatch] for a method: the routes are matched against that
    method and the path of the request; the handlers get the request as
    it came. *)
Definition dispatch (app : Hono) (req : HonoRequest) (method : Method)
  : Prog Response :=
  compose
    (map route_handler
       (filter (serves method (URL_pathname (req_url req)))
               (hono_routes app)))
    {| c_req := req; c_renderer := DefaultRenderer |}.

(** [app.fetch(request)]: a HEAD request is dispatched as a GET and
    answered with the response of that GET without its body. An
    exception of a handler is the outcome here; what hono's error
    handler makes of it is not modelled. *)
Definition Farc_fetch (req : HonoRequest) : Prog Response :=
  app <- trigger ThisHono ;;
  match req_method req with
  | HEAD =>
      response <- dispatch app req GET ;;
      Ret (WithoutBody response)
  | method => dispatch app req method
  end.

End FarcClass.

(* ===================================================================== *)
(** ** Reading a log *)
(* ===================================================================== *)

Section Logs.
Context {T : Types}.

(** The context derivations of a log: the parameters given to
    [getFrameContext] and the context it answered. *)
Definition derivation (x : Entry) : option (GetFrameContextParameters * FrameContext) :=
  match x with
  | existT _ e a =>
      match e as e0 return answer e0 -> option (GetFrameContextParameters * FrameContext) with
      | GetFrameContext p => fun ctx => Some (p, ctx)
      | _ => fun _ => None
      end a
  end.

(** A call of the user's handler: the handler, its two arguments and what
    it returned. *)
Record HandlerCall : Type := {
  call_handler : Handler;
  call_context : FrameContext;
  call_previousContext : option PreviousFrameContext;
  call_result : FrameHandlerReturnType
}.

Definition handlerCall (x : Entry) : option HandlerCall :=
  match x with
  | existT _ e a =>
      match e as e0 return answer e0 -> option HandlerCall with
      | CallHandler h c p => fun r =>
          Some {| call_handler := h; call_context := c;
                  call_previousContext := p; call_result := r |}
      | _ => fun _ => None
      end a
  end.

(** A [fetch]: its two arguments and the response. *)
Record FetchCall : Type := {
  fetch_input : option string;
  fetch_init : option RequestInit;
  fetch_response : FetchResponse
}.

Definition fetchCall (x : Entry) : option FetchCall :=
  match x with
  | existT _ e a =>
      match e as e0 return answer e0 -> option FetchCall with
      | Fetch i o => fun r =>
          Some {| fetch_input := i; fetch_init := o; fetch_response := r |}
      | _ => fun _ => None
      end a
  end.

(** The key generations of a log, and its signing requests. *)
Definition keyGenerated (x : Entry) : option Js.bytes :=
  match x with
  | existT _ e a =>
      match e as e0 return answer e0 -> option Js.bytes with
      | RandomPrivateKey => fun k => Some k
      | _ => fun _ => None
      end a
  end.

Record SignCall : Type := {
  sign_body : FrameActionBody;
  sign_options : MessageDataOptions;
  sign_signer : Signer;
  sign_result : HubResult Message
}.

Definition signCall (x : Entry) : option SignCall :=
  match x with
  | existT _ e a =>
      match e as e0 return answer e0 -> option SignCall with
      | MakeFrameAction b o s => fun r =>
          Some {| sign_body := b; sign_options := o; sign_signer := s;
                  sign_result := r |}
      | _ => fun _ => None
      end a
  end.

(** The events that write a field of [this]. *)
Definition writes (e : Event) : bool :=
  match e with
  | SetInitialState _ | SetHono _ => true
  | _ => false
  end.

Definition isWrite (x : Entry) : bool := writes (projT1 x).

Fixpoint collect {A B : Type} (f : A -> option B) (l : list A) : list B :=
  match l with
  | [] => []
  | x :: r =>
      match f x with
      | Some b => b :: collect f r
      | None => collect f r
      end
  end.

Definition derivations (l : list Entry) := collect derivation l.
Definition handlerCalls (l : list Entry) := collect handlerCall l.
Definition fetches (l : list Entry) := collect fetchCall l.
Definition keysGenerated (l : list Entry) := collect keyGenerated l.
Definition signCalls (l : list Entry) := collect signCall l.

(** The [previousContext] arguments passed on in a log, to
    [getFrameContext] and to the handler, in order. *)
Definition passedPrevious (x : Entry) : option (option PreviousFrameContext) :=
  match projT1 x with
  | GetFrameContext p => Some (gfc_previousContext p)
  | CallHandler _ _ p => Some p
  | _ => None
  end.

(** A program that writes no field of [this], whatever it is answered. *)
Fixpoint readonly {A : Type} (p : Prog A) : Prop :=
  match p with
  | Ret _ => True
  | Throw _ => True
  | Vis e k => writes e = false /\ forall a, readonly (k a)
  end.

End Logs.

(* ===================================================================== *)
(** ** Reading a rendered document *)
(* ===================================================================== *)

Section Documents.
Context {T : Types}.

Definition prop_string (name : string) (props : list (string * PropValue))
  : option string :=
  match find (fun kv => String.eqb name (fst kv)) props with
  | Some (_, PStr s) => Some s
  | _ => None
  end.

(** Is the node a [<meta property=... />] tag of the given property? *)
Definition is_meta (property : string) (n : Node) : bool :=
  match n with
  | Element tag props _ =>
      String.eqb tag "meta" &&
      match prop_string "property" props with
      | Some p => String.eqb p property
      | None => false
      end
  | _ => false
  end.

(** The content of the first meta tag of a property among [nodes]. *)
Definition meta_content (property : string) (nodes : list Node) : option string :=
  match find (is_meta property) nodes with
  | Some (Element _ props _) => prop_string "content" props
  | _ => None
  end.

(** The children of the [<head>] of an [<html>] document. *)
Definition head_of (document : Node) : list Node :=
  match document with
  | Element _ _ (Element _ _ children :: _) => children
  | _ => []
  end.

(** The document with the meta tags of a property taken out of its
    head. *)
Definition without_meta (property : string) (document : Node) : Node :=
  match document with
  | Element tag props (Element htag hprops children :: rest) =>
      Element tag props
        (Element htag hprops
           (filter (fun n => negb (is_meta property n)) children) :: rest)
  | _ => document
  end.

End Documents.

(* ===================================================================== *)
(** ** Notions used in the statements *)
(* ===================================================================== *)

Section Stated.
Context {T : Types} {R : Runtime} {H : Helpers} {C : Codec}.

(** The routes a call of [frame] adds to the router. *)
Definition registered (w : World) (self : Farc) (path : string)
  (handler : Handler) : list Route :=
  skipn (length (hono_routes (hono self)))
        (hono_routes (hono (final (run w (frame path handler) self)))).

(** "[frame(p, handler)] registers exactly GET and POST at [p], GET at
    [p + '/image'], GET and POST at [p + '/dev']; no other methods or paths
    are served": a method and path are served by the new routes exactly
    when they are one of the five. *)
Definition serves_exactly_the_five (w : World) (self : Farc) (path : string)
  (handler : Handler) : Prop :=
  forall (m : Method) (q : string),
    existsb (serves m q) (registered w self path handler) = true <->
    In (m, q) [ (GET, path); (POST, path); (GET, path ++ "/image");
                (GET, path ++ "/dev"); (POST, path ++ "/dev") ].

Definition isPost (f : FetchCall) : bool :=
  match fetch_init f with
  | Some i => String.eqb (init_method i) "POST"
  | None => false
  end.


(** "If the context URL derived for the request differs from the parsed
    path of the request URL, the handler is not invoked and the response
    is a redirect to the context URL with the incoming 'previousContext'
    query parameter appended unchanged". *)
Definition redirects_unchanged (w : World) (self : Farc) (handler : Handler)
  (c : Context) : Prop :=
  let r := run w (framePage handler c) self in
  forall parameters context,
    In (parameters, context) (derivations (log r)) ->
    ctx_url context <> parsePath (req_url (c_req c)) ->
    handlerCalls (log r) = [] /\
    outcome r =
      Returned (Redirect
        (ctx_url context ++ "?previousContext="
         ++ Js.template (Js.lookup "previousContext" (req_query (c_req c))))).

(** A codec that serializes previous contexts with [f] and is [C]
    otherwise. *)
Definition with_previous_serializer (f : PreviousFrameContext -> string)
  : Codec :=
  {| serializeJson := fun s =>
       match s return shape_type s -> string with
       | TContext => serializeJson TContext
       | TPrevious => f
       end;
     deserializeJson := deserializeJson |}.

(** Modelled from the spec: [parseIntents] of [./utils/parseIntents.js],
    which is not among the sources. The spec has the intents as "an ordered
    sequence of declarative UI controls ... translated into protocol
    meta-tags; no identity beyond position in the sequence": the tags of an
    intent are a function [tags] of its position and of the intent, and the
    tags of the sequence are those of its intents, in the order of the
    sequence. *)
Fixpoint positional (tags : nat -> Intent -> list Node) (position : nat)
  (l : list Intent) : list Node :=
  match l with
  | [] => []
  | i :: rest => List.app (tags position i) (positional tags (S position) rest)
  end.

(** The helpers with [parseIntents] as the spec has it. *)
Definition with_positional_intents (tags : nat -> Intent -> list Node)
  : Helpers :=
  {| parsePath := parsePath;
     parseIntents := positional tags 0;
     htmlToFrame := htmlToFrame;
     htmlToState := htmlToState;
     getRoutes := getRoutes |}.

End Stated.

(* ===================================================================== *)
(** ** Query strings and the context codec *)
(* ===================================================================== *)

(** How a query string that [URLSearchParams.toString] wrote is read
    back. [farc.tsx] gets the parameters from hono ([c.req.query()]); on
    the text [toString] writes, that is the reading of the
    application/x-www-form-urlencoded format below, the inverse of
    [toString]. It is not hono's reading of any other text: hono throws
    on a [%] that starts no escape and on escapes that spell no UTF-8
    character, neither of which [toString] writes. *)
Module Query.

(** [+] is a space, [%XX] is the byte XX; anything else stands for
    itself. *)
Fixpoint form_decode (s : string) : string :=
  match s with
  | EmptyString => EmptyString
  | String c r =>
      if Ascii.eqb c "+" then String " " (form_decode r)
      else if Ascii.eqb c "%" then
        match r with
        | String a (String b r') =>
            match Js.hex_value a, Js.hex_value b with
            | Some x, Some y =>
                String (ascii_of_N (16 * x + y)) (form_decode r')
            | _, _ => String c (form_decode r)
            end
        | _ => String c (form_decode r)
        end
      else String c (form_decode r)
  end.

(** The pieces of [s] between the occurrences of [sep]. *)
Fixpoint split (sep : ascii) (s : string) : list string :=
  match s with
  | EmptyString => [EmptyString]
  | String c r =>
      if Ascii.eqb c sep then EmptyString :: split sep r
      else match split sep r with
           | piece :: pieces => String c piece :: pieces
           | [] => [String c EmptyString]
           end
  end.

(** A piece [name=value], cut at its first [=]. *)
Fixpoint cut (s : string) : string * string :=
  match s with
  | EmptyString => (EmptyString, EmptyString)
  | String c r =>
      if Ascii.eqb c "=" then (EmptyString, r)
      else let (name, value) := cut r in (String c name, value)
  end.

Definition parse_pair (piece : string) : string * string :=
  let (name, value) := cut piece in (form_decode name, form_decode value).

(** The parameters of a query string, in order; empty pieces are
    skipped. *)
Definition read_query (query : string) : list (string * string) :=
  map parse_pair (filter Js.truthy (split "&" query)).

(** [c] does not occur in [s]. *)
Fixpoint free (c : ascii) (s : string) : bool :=
  match s with
  | EmptyString => true
  | String a r => negb (Ascii.eqb a c) && free c r
  end.

(** What [form_encode] writes for one character. *)
Definition form_piece (c : ascii) : string :=
  if Js.form_safe c then String c EmptyString
  else if Ascii.eqb c " " then "+"
  else Js.percent c.

(** One written pair [name=value]. *)
Definition pair_text (kv : string * string) : string :=
  Js.form_encode (fst kv) ++ "=" ++ Js.form_encode (snd kv).

End Query.

(** Modelled from the spec: [serializeJson] and [deserializeJson] of
    [./utils/serializeJson.js] and [./utils/deserializeJson.js], which are
    not among the sources. The spec: "Context codec: opaque
    serialize/decode of a JSON-shaped object into/from a URL-safe string".
    A JSON-shaped value is serialized as its JSON text, made URL-safe by
    percent-encoding; decoding undoes the two steps and fails (the
    exception of the JavaScript functions) on a text that is not
    well-formed. Numbers are the integers. *)
Module JsonCodec.

Inductive Json : Type :=
| JNull
| JBool (b : bool)
| JNumber (n : Z)
| JString (s : string)
| JArray (items : list Json)
| JObject (members : list (string * Json)).

(** The double quote and the backslash. *)
Definition dquote : ascii := ascii_of_nat 34.
Definition backslash : ascii := ascii_of_nat 92.

(** *** JSON text *)

(** A character inside a JSON string: the quote and the backslash are
    escaped with a backslash, a control character is written [\u00XX]. *)
Definition escape_char (c : ascii) : string :=
  if Ascii.eqb c dquote then String backslash (String dquote EmptyString)
  else if Ascii.eqb c backslash then
    String backslash (String backslash EmptyString)
  else if (N_of_ascii c <? 32)%N then
    String backslash
      (String "u" (String "0" (String "0"
         (String (Js.hex_digit (N_of_ascii c / 16))
            (String (Js.hex_digit (N_of_ascii c mod 16)) EmptyString)))))
  else String c EmptyString.

Fixpoint escape (s : string) : string :=
  match s with
  | EmptyString => EmptyString
  | String c r => escape_char c ++ escape r
  end.

Definition quote (s : string) : string :=
  String dquote (escape s ++ String dquote EmptyString).

Definition number_text (n : Z) : string :=
  NilZero.string_of_int (Z.to_int n).

(** The text of a value. The elements of an array after the first come
    with their comma, and the closing bracket ends the list; objects
    alike. *)
Fixpoint stringify (j : Json) : string :=
  match j with
  | JNull => "null"
  | JBool true => "true"
  | JBool false => "false"
  | JNumber n => number_text n
  | JString s => quote s
  | JArray items =>
      String "["
        match items with
        | [] => "]"
        | x :: rest =>
            stringify x ++
            (fix more (l : list Json) : string :=
               match l with
               | [] => "]"
               | y :: l' => String "," (stringify y ++ more l')
               end) rest
        end
  | JObject members =>
      String "{"
        match members with
        | [] => "}"
        | (k, x) :: rest =>
            quote k ++ String ":" (stringify x ++
            (fix more (l : list (string * Json)) : string :=
               match l with
               | [] => "}"
               | (k', y) :: l' =>
                   String "," (quote k' ++ String ":" (stringify y ++ more l'))
               end) rest)
        end
  end.

(** The tail of an array text after its first element, and of an object
    text after its first member. *)
Fixpoint more_elements (l : list Json) : string :=
  match l with
  | [] => "]"
  | y :: l' => String "," (stringify y ++ more_elements l')
  end.

Definition member_text (m : string * Json) : string :=
  quote (fst m) ++ String ":" (stringify (snd m)).

Fixpoint more_members (l : list (string * Json)) : string :=
  match l with
  | [] => "}"
  | m :: l' => String "," (member_text m ++ more_members l')
  end.

(** Where a value may end: at the end of the text or before a character
    that is no part of a number. *)
Definition value_ends (s : string) : bool :=
  match s with
  | EmptyString => true
  | String c _ => negb (Ascii.eqb c "-" ||
                        ((48 <=? N_of_ascii c) && (N_of_ascii c <=? 57))%N)
  end.

(** *** Reading JSON text *)

(** The characters of a string after its opening quote, up to the closing
    quote, and what follows it. *)
Fixpoint string_body (s : string) : option (string * string) :=
  match s with
  | EmptyString => None
  | String c r =>
      if Ascii.eqb c dquote then Some (EmptyString, r)
      else if Ascii.eqb c backslash then
        match r with
        | String e r' =>
            if Ascii.eqb e dquote || Ascii.eqb e backslash then
              match string_body r' with
              | Some (t, after) => Some (String e t, after)
              | None => None
              end
            else if Ascii.eqb e "u" then
              match r' with
              | String z1 (String z2 (String h (String l r''))) =>
                  match Js.hex_value h, Js.hex_value l with
                  | Some x, Some y =>
                      if Ascii.eqb z1 "0" && Ascii.eqb z2 "0" then
                        match string_body r'' with
                        | Some (t, after) =>
                            Some (String (ascii_of_N (16 * x + y)) t, after)
                        | None => None
                        end
                      else None
                  | _, _ => None
                  end
              | _ => None
              end
            else None
        | EmptyString => None
        end
      else
        match string_body r with
        | Some (t, after) => Some (String c t, after)
        | None => None
        end
  end.

(** A sign or a digit. *)
Definition number_char (c : ascii) : bool :=
  Ascii.eqb c "-" || ((48 <=? N_of_ascii c) && (N_of_ascii c <=? 57))%N.

Fixpoint number_prefix (s : string) : string * string :=
  match s with
  | EmptyString => (EmptyString, EmptyString)
  | String c r =>
      if number_char c then
        let (digits, after) := number_prefix r in (String c digits, after)
      else (EmptyString, s)
  end.

Definition number (s : string) : option (Json * string) :=
  let (digits, after) := number_prefix s in
  match NilZero.int_of_string digits with
  | Some i => Some (JNumber (Z.of_int i), after)
  | None => None
  end.

(** Does [s] start with [word]? *)
Fixpoint starts_with (word s : string) : bool :=
  match word with
  | EmptyString => true
  | String a word' =>
      match s with
      | EmptyString => false
      | String b s' => Ascii.eqb a b && starts_with word' s'
      end
  end.

Definition keyword (word : string) (value : Json) (s : string)
  : option (Json * string) :=
  if starts_with word s then Some (value, Js.drop (String.length word) s)
  else None.

(** A value at the start of [s] and what follows it; [fuel] bounds the
    nesting and the number of elements. *)
Fixpoint value (fuel : nat) (s : string) : option (Json * string) :=
  match fuel with
  | O => None
  | S fuel' =>
      match s with
      | EmptyString => None
      | String c r =>
          if Ascii.eqb c "n" then keyword "null" JNull s
          else if Ascii.eqb c "t" then keyword "true" (JBool true) s
          else if Ascii.eqb c "f" then keyword "false" (JBool false) s
          else if Ascii.eqb c dquote then
            match string_body r with
            | Some (t, after) => Some (JString t, after)
            | None => None
            end
          else if Ascii.eqb c "[" then
            match r with
            | String c' r' =>
                if Ascii.eqb c' "]" then Some (JArray [], r')
                else
                  match value fuel' r with
                  | Some (x, after) =>
                      match elements fuel' after with
                      | Some (xs, after') => Some (JArray (x :: xs), after')
                      | None => None
                      end
                  | None => None
                  end
            | EmptyString => None
            end
          else if Ascii.eqb c "{" then
            match r with
            | String c' r' =>
                if Ascii.eqb c' "}" then Some (JObject [], r')
                else
                  match member fuel' r with
                  | Some (m, after) =>
                      match members fuel' after with
                      | Some (ms, after') => Some (JObject (m :: ms), after')
                      | None => None
                      end
                  | None => None
                  end
            | EmptyString => None
            end
          else number s
      end
  end

with elements (fuel : nat) (s : string) : option (list Json * string) :=
  match fuel with
  | O => None
  | S fuel' =>
      match s with
      | EmptyString => None
      | String c r =>
          if Ascii.eqb c "]" then Some ([], r)
          else if Ascii.eqb c "," then
            match value fuel' r with
            | Some (x, after) =>
                match elements fuel' after with
                | Some (xs, after') => Some (x :: xs, after')
                | None => None
                end
            | None => None
            end
          else None
      end
  end

with member (fuel : nat) (s : string) : option ((string * Json) * string) :=
  match fuel with
  | O => None
  | S fuel' =>
      match s with
      | EmptyString => None
      | String c r =>
          if Ascii.eqb c dquote then
            match string_body r with
            | Some (k, String c' after) =>
                if Ascii.eqb c' ":" then
                  match value fuel' after with
                  | Some (x, after') => Some ((k, x), after')
                  | None => None
                  end
                else None
            | _ => None
            end
          else None
      end
  end

with members (fuel : nat) (s : string)
  : option (list (string * Json) * string) :=
  match fuel with
  | O => None
  | S fuel' =>
      match s with
      | EmptyString => None
      | String c r =>
          if Ascii.eqb c "}" then Some ([], r)
          else if Ascii.eqb c "," then
            match member fuel' r with
            | Some (m, after) =>
                match members fuel' after with
                | Some (ms, after') => Some (m :: ms, after')
                | None => None
                end
            | None => None
            end
          else None
      end
  end.

(** The value a whole text stands for. The length of the text is fuel
    enough for any text. *)
Definition parse (s : string) : option Json :=
  match value (S (String.length s)) s with
  | Some (j, EmptyString) => Some j
  | _ => None
  end.

(** *** URL-safe text *)

(** The characters [encodeURIComponent] keeps: letters, digits and
    [-_.!~*'()]. *)
Definition unreserved (c : ascii) : bool :=
  let n := N_of_ascii c in
  (((48 <=? n) && (n <=? 57)) || ((65 <=? n) && (n <=? 90))
   || ((97 <=? n) && (n <=? 122))
   || (n =? 45) || (n =? 95) || (n =? 46) || (n =? 33) || (n =? 126)
   || (n =? 42) || (n =? 39) || (n =? 40) || (n =? 41))%N.

Fixpoint encodeURIComponent (s : string) : string :=
  match s with
  | EmptyString => EmptyString
  | String c r =>
      if unreserved c then String c (encodeURIComponent r)
      else Js.percent c ++ encodeURIComponent r
  end.

(** [decodeURIComponent]; [None] is its URIError. *)
Fixpoint decodeURIComponent (s : string) : option string :=
  match s with
  | EmptyString => Some EmptyString
  | String c r =>
      if Ascii.eqb c "%" then
        match r with
        | String a (String b r') =>
            match Js.hex_value a, Js.hex_value b with
            | Some x, Some y =>
                option_map (String (ascii_of_N (16 * x + y)))
                           (decodeURIComponent r')
            | _, _ => None
            end
        | _ => None
        end
      else option_map (String c) (decodeURIComponent r)
  end.

(** URL-safe text: unreserved characters and percent escapes only. *)
Definition url_safe_char (c : ascii) : bool :=
  unreserved c || Ascii.eqb c "%".

Fixpoint all_chars (p : ascii -> bool) (s : string) : bool :=
  match s with
  | EmptyString => true
  | String c r => p c && all_chars p r
  end.

Definition url_safe (s : string) : bool := all_chars url_safe_char s.

(** *** The codec *)

Definition serializeJson (data : Json) : string :=
  encodeURIComponent (stringify data).

Definition deserializeJson (data : string) : option Json :=
  match decodeURIComponent data with
  | Some text => parse text
  | None => None
  end.

(** The context as the next request finds it: the value of the query
    parameter [name] of a query string, decoded. *)
Definition received (name : string) (query : string) : option Json :=
  match Js.lookup name (Query.read_query query) with
  | Some data => deserializeJson data
  | None => None
  end.

End JsonCodec.

(* ===================================================================== *)
(** ** Further notions used in the statements *)
(* ===================================================================== *)

Module Text.

(** Does [pat] occur in [s]? *)
Fixpoint occurs (pat s : string) : bool :=
  String.prefix pat s ||
  match s with
  | EmptyString => false
  | String _ r => occurs pat r
  end.

End Text.

Section Serving.
Context {T : Types} {R : Runtime} {H : Helpers} {C : Codec}.

(** The handlers that answer on their own: every closure [frame]
    registers but the layout middleware, which calls [next]. *)
Definition answers_alone (h : RouteHandler) : bool :=
  match h with
  | DevRenderer => false
  | _ => true
  end.

(** A route path that is matched as it is written: it holds neither
    [:], which starts a parameter of a hono path, nor the wildcard [*]. *)
Definition literal (path : string) : bool :=
  negb (Text.occurs ":" path) && negb (Text.occurs "*" path).

Definition literal_routes (app : Hono) : bool :=
  forallb (fun r => literal (route_path r)) (hono_routes app).

(** The method hono matches the routes against: GET for a HEAD
    request, the method of the request for any other. *)
Definition dispatched (m : Method) : Method :=
  match m with
  | HEAD => GET
  | _ => m
  end.

(** The response hono gives for the response of the handlers: for a HEAD
    request it is that response without its body. *)
Definition finished (req : HonoRequest) (response : Response) : Response :=
  match req_method req with
  | HEAD => WithoutBody response
  | _ => response
  end.

(** The request with result [r] was answered from the run [handled] of
    the handlers hono dispatched to: the instance and the events are
    those of the handlers, and when they returned a response, [r] returns
    it as hono finishes it. What becomes of an exception of a handler is
    left to hono's error handler, and is not stated. *)
Definition answered_from (req : HonoRequest) (handled r : Result Response)
  : Prop :=
  final r = final handled /\
  log r = log handled /\
  forall response,
    outcome handled = Returned response ->
    outcome r = Returned (finished req response).

(** The context a request starts with, and the one the layout middleware
    hands on. *)
Definition fresh (req : HonoRequest) : Context :=
  {| c_req := req; c_renderer := DefaultRenderer |}.

Definition laid_out (req : HonoRequest) : Context :=
  {| c_req := req; c_renderer := DevLayout req |}.

(** The instance after the constructor and one call of [frame]. *)
Definition constructed (w : World) (p : FarcConstructorParameters)
  (path : string) (handler : Handler) : Farc :=
  final (run w (bind (constructor p) (fun _ => frame path handler)) blank).

(** What the constructor keeps of its [initialState] parameter. *)
Definition kept_state (p : FarcConstructorParameters) : option State :=
  match param_initialState p with
  | Some s => if state_truthy s then Some s else None
  | None => None
  end.

(** The base path the constructor gives the router. *)
Definition kept_basePath (p : FarcConstructorParameters) : string :=
  match param_basePath p with
  | Some basePath =>
      if Js.truthy basePath then mergePath "/" basePath else "/"
  | None => "/"
  end.

(** The search parameters of the image URL, as the frame route fills
    them. *)
Definition imageSearch (query : list (string * string))
  (serializedContext : string) : Js.URLSearchParams :=
  let ogSearch : Js.URLSearchParams := [] in
  let ogSearch :=
    match Js.lookup "previousContext" query with
    | Some q => if Js.truthy q then Js.set "previousContext" q ogSearch
                else ogSearch
    | None => ogSearch
    end in
  if Js.truthy serializedContext
  then Js.set "context" serializedContext ogSearch else ogSearch.

End Serving.

(* ===================================================================== *)
(** ** A concrete instance *)
(* ===================================================================== *)

(** One way to fill in the parameters, used to run the handlers on
    concrete requests: states are numbers, a context is its URL and a
    state, a handler is a number that picks what it returns. The helpers
    are stand-ins that keep their arguments visible. *)
Module Demo.

#[export] Instance types : Types := {|
  State := nat;
  state_truthy := fun n => negb (Nat.eqb n 0);
  FrameContext := string * nat;
  ctx_url := fst;
  ctx_deriveState := snd;
  Intent := string;
  Handler := nat;
  HonoOptions := unit;
  FrameInfo := string;
  StateInfo := string;
  InspectedRoutes := list string;
  RoutesInfo := list string;
  JsNumber := option Z;
  JsError := string;
  FrameActionBody := Js.bytes * option Z * Js.bytes;
  Message := Js.bytes;
  msg_hash := fun m => m;
  msg_data_timestamp := fun _ => Some 0%Z;
  HubError := string
|}.

(** The part of [s] before the first [c], and the part from it on. *)
Fixpoint before (c : ascii) (s : string) : string :=
  match s with
  | EmptyString => EmptyString
  | String a r => if Ascii.eqb a c then EmptyString else String a (before c r)
  end.

Fixpoint from (c : ascii) (s : string) : string :=
  match s with
  | EmptyString => EmptyString
  | String a r => if Ascii.eqb a c then s else from c r
  end.

(** URLs of the form [http://host/path?query]. *)
Definition origin (u : string) : string :=
  "http://" ++ before "/" (Js.drop 7 u).

Definition pathname (u : string) : string :=
  before "?" (from "/" (Js.drop 7 u)).

(** [parseInt] on one decimal digit; [None] is NaN. *)
Definition digit (s : string) : option Z :=
  match s with
  | String c EmptyString =>
      if ((48 <=? N_of_ascii c) && (N_of_ascii c <=? 57))%N
      then Some (Z.of_N (N_of_ascii c - 48))
      else None
  | _ => None
  end.

#[export] Instance runtime : Runtime := {|
  URL_origin := origin;
  URL_pathname := pathname;
  parseInt := digit;
  JSON_stringify := fun p => "{" ++ ud_url (untrustedData p) ++ "}";
  FrameActionBody_create := fun base =>
    (fab_url base, fab_buttonIndex base,
     match fab_inputText base with
     | Some text => text
     | None => []
     end);
  Message_encode := fun m => m;
  mergePath := fun base path =>
    if String.eqb base "/" then path else base ++ path;
  inspectRoutes := fun app => map route_path (hono_routes app)
|}.

#[export] Instance helpers : Helpers := {|
  parsePath := fun p => p;
  parseIntents := map (fun label => Element "meta"
    [("property", PStr "fc:frame:button"); ("content", PStr label)] []);
  htmlToFrame := fun text => text;
  htmlToState := fun text => text;
  getRoutes := fun _ routes => routes
|}.

#[export] Instance codec : Codec := {|
  serializeJson := fun s =>
    match s return shape_type s -> string with
    | TContext => fun c => "ctx:" ++ fst c
    | TPrevious => fun p => "prev:" ++ fst (prev_context p)
    end;
  deserializeJson := fun s =>
    match s return option string -> Completion (shape_type s) with
    | TContext => fun o => Normal (Js.template o, 0)
    | TPrevious => fun o =>
        match o with
        | Some "undefined" => Abrupt "SyntaxError"
        | _ =>
            Normal {| prev_context := (Js.template o, 0);
                      prev_intents := None;
                      prev_previousState := 0 |}
        end
    end
|}.

(** What the demo handler returns. *)
Definition returned : FrameHandlerReturnType :=
  {| action := None;
     image := Text "image";
     imageAspectRatio := None;
     intents := Some ["Yes"; "No"] |}.

Definition ok : FetchResponse :=
  {| status := 200; statusText := "OK"; body := "<html>callback</html>" |}.

Definition page : FetchResponse :=
  {| status := 200; statusText := "OK"; body := "<html>page</html>" |}.

Definition failed : FetchResponse :=
  {| status := 500; statusText := "Internal Server Error"; body := "oops" |}.

(** The signing library: it validates the body before it signs, and
    answers with an error for a button index above 5. *)
Definition sign (body : FrameActionBody) : HubResult Message :=
  let '(url, buttonIndex, _) := body in
  match buttonIndex with
  | Some n => if (5 <? n)%Z then Err "invalid button index" else Ok url
  | None => Ok url
  end.

(** A world where the callback answers [callback] and a fetch of a page
    answers [page]; the frame context keeps the URL of the request, or has
    the URL [contextUrl] when one is given. *)
Definition world (callback : FetchResponse) (contextUrl : option string)
  : World :=
  fun _ e =>
    match e as e0 return answer e0 with
    | ThisInitialState => None
    | SetInitialState _ => tt
    | ThisHono => new_Hono None
    | SetHono _ => tt
    | RequestToContext req => (req_url req, 0)
    | GetFrameContext p =>
        match contextUrl with
        | Some u => (u, snd (gfc_context p))
        | None => gfc_context p
        end
    | CallHandler _ _ _ => returned
    | Fetch _ (Some _) => callback
    | Fetch _ None => page
    | RandomPrivateKey => [x01; x02; x03]%byte
    | MakeFrameAction body _ _ => sign body
    end.

Definition request (m : Method) (url : string)
  (query form : list (string * string)) : HonoRequest :=
  {| req_method := m; req_url := url; req_query := query;
     req_formData := Normal form |}.

(** A request whose body is not form data. *)
Definition not_a_form : @JsError types := "TypeError".

Definition request_without_form (m : Method) (url : string) : HonoRequest :=
  {| req_method := m; req_url := url; req_query := [];
     req_formData := Abrupt not_a_form |}.

Definition context (req : HonoRequest) : Context :=
  {| c_req := req; c_renderer := DefaultRenderer |}.

Definition parameters (basePath : option string) (state : option nat)
  : FarcConstructorParameters :=
  {| param_basePath := basePath; param_honoOptions := None;
     param_initialState := state |}.

(** An application made with [parameters], with one frame at [/app]. *)
Definition application (w : World) (basePath : option string)
  (state : option nat) : Farc :=
  final (run w (bind (constructor (parameters basePath state))
                     (fun _ => frame "/app" 0))
             blank).

Definition app : Farc := application (world ok None) None (Some 7).

(** Worlds, requests and records for the runs below. *)
Definition everything_fine : World := world ok None.

Definition context_elsewhere : World :=
  world ok (Some "http://localhost/start").

Definition callback_fails : World := world failed None.

Definition get_app : Context :=
  context (request GET "http://localhost/app" [] []).

Definition get_app_again : Context :=
  context
    (request GET "http://localhost/app" [("previousContext", "abc")] []).


Definition click : Context :=
  context
    (request POST "http://localhost/app/dev" []
       [("buttonIndex", "1"); ("postUrl", "http://localhost/app")]).

(** A POST to the preview whose body is no form, and a click sent
    without a [postUrl]. *)
Definition post_without_form : Context :=
  context (request_without_form POST "http://localhost/app/dev").

Definition click_nowhere : Context :=
  context
    (request POST "http://localhost/app/dev" [] [("buttonIndex", "1")]).

(** A request whose previous context holds a line feed. *)
Definition line_feed : string := String (ascii_of_nat 10) EmptyString.

Definition get_app_broken : Context :=
  context
    (request GET "http://localhost/app"
       [("previousContext", "a" ++ line_feed ++ "b")] []).

Definition derived_broken : @GetFrameContextParameters types :=
  {| gfc_context := ("http://localhost/app", 0);
     gfc_initialState := Some 7;
     gfc_previousContext :=
       Some {| prev_context := ("a" ++ line_feed ++ "b", 0);
               prev_intents := None;
               prev_previousState := 0 |};
     gfc_request := c_req get_app_broken |}.

Definition the_call : HandlerCall :=
  {| call_handler := 0;
     call_context := ("http://localhost/app", 0);
     call_previousContext := None;
     call_result := returned |}.

Definition derived_elsewhere : @GetFrameContextParameters types :=
  {| gfc_context := ("http://localhost/app", 0);
     gfc_initialState := Some 7;
     gfc_previousContext :=
       Some {| prev_context := ("abc", 0);
               prev_intents := None;
               prev_previousState := 0 |};
     gfc_request := c_req get_app_again |}.

Definition the_post : FetchCall :=
  {| fetch_input := Some "http://localhost/app";
     fetch_init :=
       Some {| init_method := "POST";
               init_body := "{http://localhost/app}" |};
     fetch_response := failed |}.

Definition the_fallback : FetchCall :=
  {| fetch_input := Some "http://localhost/app";
     fetch_init := None;
     fetch_response := page |}.

Definition button (label : string) : Node :=
  Element "meta"
    [("property", PStr "fc:frame:button"); ("content", PStr label)] [].

Definition button_tags : nat -> @Intent types -> list Node :=
  fun _ label => [button label].

End Demo.

(** More requests and records on the demo instance. *)
Module MoreDemo.
Import Demo.

(** Two frames registered at the same path, by the handlers 1 and 2. *)
Definition twice : Farc :=
  final (run everything_fine
           (bind (frame "/app" 1) (fun _ => frame "/app" 2)) blank).

Definition once : Farc := final (run everything_fine (frame "/app" 0) blank).

Definition first_route : Route :=
  {| route_method := ALL; route_path := "/app";
     route_handler := FramePage 1 |}.

Definition image_route : Route :=
  {| route_method := Only GET; route_path := "/app/image";
     route_handler := OgImage 1 |}.

Definition head_image : HonoRequest :=
  request HEAD "http://localhost/app/image" [("context", "ctx:/app")] [].

Definition get (url : string) (query : list (string * string)) : HonoRequest :=
  request GET url query [].

(** Requests at the preview of [/app]. *)
Definition get_preview : HonoRequest :=
  request GET "http://localhost/app/dev" [] [].

Definition post_preview : HonoRequest :=
  request POST "http://localhost/app/dev" []
    [("buttonIndex", "1"); ("postUrl", "http://localhost/app")].

Definition head_preview : HonoRequest :=
  request HEAD "http://localhost/app/dev" [] [].

Definition put_preview : HonoRequest :=
  request PUT "http://localhost/app/dev" [] [].

(** What the preview shows for them: the page as fetched, and the page
    the callback answered. *)
Definition dev_page : DevProps :=
  {| dev_baseUrl := "http://localhost/app";
     dev_frame := "<html>page</html>";
     dev_routes := ["/app"; "/app/image"; "/app/dev"; "/app/dev"; "/app/dev"];
     dev_state := "<html>page</html>" |}.

Definition preview_page : PreviewProps :=
  {| preview_baseUrl := "http://localhost/app";
     preview_error := None;
     preview_frame := "<html>callback</html>";
     preview_routes :=
       ["/app"; "/app/image"; "/app/dev"; "/app/dev"; "/app/dev"];
     preview_state := "<html>callback</html>" |}.

Definition derived : GetFrameContextParameters :=
  {| gfc_context := ("http://localhost/app", 0);
     gfc_initialState := Some 7;
     gfc_previousContext := None;
     gfc_request := c_req get_app |}.

Definition page_context : FrameContext := ("http://localhost/app", 0).

Definition image_request : Context :=
  context (get "http://localhost/app/image" [("context", "ctx:/app")]).

Definition image_context : FrameContext := ("ctx:/app", 0).

Definition previous_abc : PreviousFrameContext :=
  {| prev_context := ("abc", 0);
     prev_intents := None;
     prev_previousState := 0 |}.

Definition call_again : HandlerCall :=
  {| call_handler := 0;
     call_context := ("http://localhost/app", 0);
     call_previousContext := Some previous_abc;
     call_result := returned |}.

Definition a_message : Message := [x0a; x0b]%byte.

End MoreDemo.

(* ===================================================================== *)
(** ** The definitions on small inputs *)
(* ===================================================================== *)

Section Examples.

Example replace_dev :
  Js.replace "/dev" "" "http://localhost/app/dev" = "http://localhost/app".
Proof. reflexivity. Qed.

(** Only the first occurrence goes, wherever it is. *)
Example replace_first_only :
  Js.replace "/dev" "" "http://localhost/dev/tools/dev"
  = "http://localhost/tools/dev".
Proof. reflexivity. Qed.

Example replace_in_host :
  Js.replace "/dev" "" "http://dev.farc.xyz/app/dev"
  = "http:/.farc.xyz/app/dev".
Proof. reflexivity. Qed.

Example replace_absent : Js.replace "/dev" "" "/app" = "/app".
Proof. reflexivity. Qed.

Example twenty_zero_bytes :
  Js.Buffer_from_hex "0000000000000000000000000000000000000000"
  = repeat x00 20.
Proof. reflexivity. Qed.

Example hex_of_bytes : Js.bytesToHex [x00; x0f; xa5; xff] = "000fa5ff".
Proof. reflexivity. Qed.

Example hex_back : Js.Buffer_from_hex "000fA5ff" = [x00; x0f; xa5; xff].
Proof. reflexivity. Qed.

Example set_replaces :
  Js.set "a" "3" [("a", "1"); ("b", "2"); ("a", "4")] = [("a", "3"); ("b", "2")].
Proof. reflexivity. Qed.

Example query_written :
  Js.toString [("previousContext", "{x: 1}"); ("context", "a&b=c")]
  = "previousContext=%7Bx%3A+1%7D&context=a%26b%3Dc".
Proof. reflexivity. Qed.

Example query_read :
  Query.read_query "previousContext=%7Bx%3A+1%7D&&context=a%26b%3Dc&flag"
  = [("previousContext", "{x: 1}"); ("context", "a&b=c"); ("flag", "")].
Proof. reflexivity. Qed.

(** Whitespace at the ends of a header value is stripped; a line feed
    inside, or a character above U+00FF, is refused; a character up to
    U+00FF is kept. *)
Example header_value_stripped :
  Js.Headers_value (" /start?previousContext=a b " ++ Demo.line_feed)
  = Some "/start?previousContext=a b".
Proof. reflexivity. Qed.

Example header_value_with_line_feed :
  Js.Headers_value ("/start?previousContext=a" ++ Demo.line_feed ++ "b") = None.
Proof. reflexivity. Qed.

Example header_value_above_latin1 :
  Js.Headers_value "/start?previousContext=ā" = None.
Proof. reflexivity. Qed.

Example header_value_latin1 :
  Js.Headers_value "/start?previousContext=é" = Some "/start?previousContext=é".
Proof. reflexivity. Qed.

Example context_serialized :
  JsonCodec.serializeJson
    (JsonCodec.JObject
       [ ("url", JsonCodec.JString "/app");
         ("buttonIndex", JsonCodec.JNumber 2);
         ("tags", JsonCodec.JArray
            [JsonCodec.JNull; JsonCodec.JBool true; JsonCodec.JNumber (-7)]) ])
  = "%7B%22url%22%3A%22%2Fapp%22%2C%22buttonIndex%22%3A2%2C%22tags%22%3A%5Bnull%2Ctrue%2C-7%5D%7D".
Proof. reflexivity. Qed.

Example context_deserialized :
  JsonCodec.deserializeJson "%7B%22url%22%3A%22%2Fapp%22%2C%22n%22%3A%5B1%2C%7B%7D%5D%7D"
  = Some (JsonCodec.JObject
            [ ("url", JsonCodec.JString "/app");
              ("n", JsonCodec.JArray
                 [JsonCodec.JNumber 1; JsonCodec.JObject []]) ]).
Proof. reflexivity. Qed.

Example undefined_is_not_json : JsonCodec.deserializeJson "undefined" = None.
Proof. reflexivity. Qed.

Example truncated_is_not_json : JsonCodec.deserializeJson "%7B%22url%22" = None.
Proof. reflexivity. Qed.

Example demo_routes :
  map (fun r => (route_method r, route_path r)) (hono_routes (hono Demo.app))
  = [ (ALL, "/app"); (Only GET, "/app/image"); (ALL, "/app/dev");
      (Only GET, "/app/dev"); (Only POST, "/app/dev") ].
Proof. reflexivity. Qed.

(** A falsy initial state is not stored. *)
Example falsy_initial_state :
  initialState (Demo.application Demo.everything_fine None (Some 0)) = None.
Proof. reflexivity. Qed.

Example base_path_prefixes_routes :
  map route_path
    (hono_routes (hono (Demo.application Demo.everything_fine (Some "/api") None)))
  = ["/api/app"; "/api/app/image"; "/api/app/dev"; "/api/app/dev"; "/api/app/dev"].
Proof. reflexivity. Qed.

End Examples.

(* ===================================================================== *)
(** ** Strings *)
(* ===================================================================== *)

Section StringFacts.

Lemma append_assoc (a b c : string) : (a ++ b) ++ c = a ++ (b ++ c).
Proof. induction a as [| x a IH]; cbn; [reflexivity | now rewrite IH]. Qed.

Lemma append_empty_r (a : string) : a ++ EmptyString = a.
Proof. induction a as [| x a IH]; cbn; [reflexivity | now rewrite IH]. Qed.

Lemma length_append (a b : string) :
  String.length (a ++ b) = String.length a + String.length b.
Proof. induction a as [| x a IH]; cbn; [reflexivity | now rewrite IH]. Qed.

End StringFacts.


(* ===================================================================== *)
(** ** Running programs: general facts *)
(* ===================================================================== *)

Section RunFacts.
Context {T : Types}.

Lemma run_from_bind {A B : Type} (w : World) (p : Prog A) (f : A -> Prog B) :
  forall self l,
    run_from w (bind p f) self l =
    match outcome (run_from w p self l) with
    | Returned a =>
        run_from w (f a) (final (run_from w p self l)) (log (run_from w p self l))
    | Thrown x =>
        {| final := final (run_from w p self l);
           log := log (run_from w p self l);
           outcome := Thrown x |}
    end.
Proof.
  induction p as [a | x | e k IH]; intros self l; cbn [bind run_from].
  - reflexivity.
  - reflexivity.
  - destruct (perform w self l e) as [a self']. apply IH.
Qed.

Lemma perform_readonly (w : World) (self : Farc) (l : list Entry) (e : Event) :
  writes e = false -> snd (perform w self l e) = self.
Proof. destruct e; cbn; intros E; try reflexivity; discriminate E. Qed.

(** A read-only program leaves the instance as it found it, and every
    entry it adds to the log is a read or an outside call. *)
Lemma readonly_run {A : Type} (w : World) (p : Prog A) :
  readonly p ->
  forall self l,
    final (run_from w p self l) = self /\
    exists added,
      log (run_from w p self l) = (l ++ added)%list /\
      filter isWrite added = [].
Proof.
  induction p as [a | x | e k IH]; intros RO self l; cbn [run_from].
  - split; [reflexivity | exists []; split; [now rewrite app_nil_r | reflexivity]].
  - split; [reflexivity | exists []; split; [now rewrite app_nil_r | reflexivity]].
  - destruct RO as [We RO].
    pose proof (perform_readonly w self l e We) as P.
    destruct (perform w self l e) as [a self']. cbn in P. subst self'.
    destruct (IH a (RO a) self (l ++ [entry e a])%list) as [F [added [L W]]].
    split; [exact F |].
    exists (entry e a :: added). split.
    + rewrite L, <- app_assoc. reflexivity.
    + cbn [filter]. unfold isWrite at 1. cbn [entry projT1]. rewrite We. exact W.
Qed.

Lemma readonly_bind {A B : Type} (p : Prog A) (f : A -> Prog B) :
  readonly p -> (forall a, readonly (f a)) -> readonly (bind p f).
Proof.
  induction p as [a | x | e k IH]; cbn [bind readonly]; intros RO F.
  - apply F.
  - exact I.
  - destruct RO as [We RO]. split; [exact We |].
    intros a. apply IH; [apply RO | exact F].
Qed.

Lemma readonly_trigger (e : Event) : writes e = false -> readonly (trigger e).
Proof. intros We. cbn. split; [exact We | intros; exact I]. Qed.

End RunFacts.

(** Splits a [readonly] goal along the binds of the program. *)
Ltac readonly_steps :=
  repeat first
    [ exact I
    | reflexivity
    | apply readonly_bind; [ | intros ? ]
    | apply readonly_trigger
    | match goal with
      | |- readonly (if ?b then _ else _) => destruct b
      | |- readonly (match ?x with _ => _ end) => destruct x
      end
    | progress cbn [readonly] ].

Section HeaderFacts.

Lemma strip_leading_kept (s : string) :
  Js.starts_blank s = false -> Js.strip_leading s = s.
Proof. destruct s as [| c r]; cbn; [reflexivity | intros ->; reflexivity]. Qed.

Lemma strip_trailing_kept (s : string) :
  Js.ends_blank s = false -> Js.strip_trailing s = s.
Proof.
  induction s as [| c r IH]; [reflexivity |].
  destruct r as [| d r'].
  - cbn. intros ->. reflexivity.
  - intros E. change (Js.ends_blank (String d r') = false) in E.
    cbn [Js.strip_trailing] in IH |- *. rewrite (IH E). reflexivity.
Qed.

(** A value with no whitespace at its ends and only bytes a header value
    may hold is stored as it is. *)
Lemma Headers_value_kept (s : string) :
  Js.every Js.header_byte s = true ->
  Js.starts_blank s = false -> Js.ends_blank s = false ->
  Js.Headers_value s = Some s.
Proof.
  intros E S F. unfold Js.Headers_value.
  rewrite (strip_leading_kept s S), (strip_trailing_kept s F), E. reflexivity.
Qed.

Lemma ends_blank_app (a : string) (c : ascii) (b : string) :
  Js.ends_blank (a ++ String c b) = Js.ends_blank (String c b).
Proof.
  induction a as [| x a IH]; [reflexivity |].
  change (String x a ++ String c b) with (String x (a ++ String c b)).
  destruct a as [| y a']; exact IH.
Qed.

Lemma starts_blank_app (a b : string) :
  Js.starts_blank (a ++ b) =
  match a with
  | EmptyString => Js.starts_blank b
  | String _ _ => Js.starts_blank a
  end.
Proof. destruct a; reflexivity. Qed.

(** Stripping takes nothing away from a byte that is no whitespace, nor
    anything between two of them. *)
Lemma strip_leading_from (a : string) (x : ascii) (b : string) :
  Js.http_whitespace x = false ->
  exists a', Js.strip_leading (a ++ String x b) = a' ++ String x b.
Proof.
  intros X. induction a as [| c a IH].
  - exists EmptyString. cbn. now rewrite X.
  - cbn [append Js.strip_leading]. destruct (Js.http_whitespace c).
    + exact IH.
    + now exists (String c a).
Qed.

Lemma every_strip_trailing (f : ascii -> bool) (a : string) (x : ascii)
  (b : string) :
  Js.http_whitespace x = false -> f x = false ->
  Js.every f (Js.strip_trailing (a ++ String x b)) = false.
Proof.
  intros X F. induction a as [| c a IH].
  - cbn [append Js.strip_trailing]. rewrite X.
    destruct (Js.strip_trailing b); cbn [Js.every]; now rewrite F.
  - cbn [append Js.strip_trailing].
    destruct (Js.strip_trailing (a ++ String x b)) as [| d kept].
    + discriminate IH.
    + cbn [Js.every] in IH |- *. rewrite IH. apply andb_false_r.
Qed.

(** A byte that is neither whitespace nor allowed in a header value
    makes [headers.set] throw, wherever it stands. *)
Lemma Headers_value_refused (a : string) (x : ascii) (b : string) :
  Js.http_whitespace x = false -> Js.header_byte x = false ->
  Js.Headers_value (a ++ String x b) = None.
Proof.
  intros X F. unfold Js.Headers_value.
  destruct (strip_leading_from a x b X) as [a' ->].
  now rewrite (every_strip_trailing Js.header_byte a' x b X F).
Qed.

Lemma every_app (f : ascii -> bool) (a b : string) :
  Js.every f (a ++ b) = Js.every f a && Js.every f b.
Proof.
  induction a as [| c a IH]; cbn [append Js.every]; [reflexivity |].
  now rewrite IH, andb_assoc.
Qed.

Lemma strip_trailing_after (a : string) (y : ascii) (b : string) :
  Js.http_whitespace y = false ->
  Js.strip_trailing (a ++ String y b) = a ++ Js.strip_trailing (String y b).
Proof.
  intros Y. induction a as [| c a IH]; [reflexivity |].
  cbn [append]. change (Js.strip_trailing (String c (a ++ String y b)))
    with (match Js.strip_trailing (a ++ String y b) with
          | EmptyString =>
              if Js.http_whitespace c then EmptyString else String c EmptyString
          | kept => String c kept
          end).
  rewrite IH. cbn [Js.strip_trailing]. rewrite Y.
  destruct a; destruct (Js.strip_trailing b); reflexivity.
Qed.

(** A byte a header value may not hold makes [headers.set] throw when
    bytes that are no whitespace stand before it and after it: it is not
    at an end that is stripped. *)
Lemma Headers_value_refused_inside (a : string) (p : ascii) (m : string)
  (x : ascii) (m' : string) (y : ascii) (b : string) :
  Js.http_whitespace p = false -> Js.header_byte x = false ->
  Js.http_whitespace y = false ->
  Js.Headers_value (a ++ String p (m ++ String x (m' ++ String y b))) = None.
Proof.
  intros P F Y. unfold Js.Headers_value.
  destruct (strip_leading_from a p (m ++ String x (m' ++ String y b)) P)
    as [a' ->].
  assert (E : a' ++ String p (m ++ String x (m' ++ String y b)) =
              (a' ++ String p (m ++ String x m')) ++ String y b).
  { rewrite append_assoc. f_equal. cbn [append]. f_equal.
    rewrite append_assoc. reflexivity. }
  rewrite E, (strip_trailing_after _ y b Y), !every_app.
  cbn [Js.every]. rewrite every_app. cbn [Js.every]. rewrite F.
  now rewrite !andb_false_r.
Qed.

End HeaderFacts.

Section HandlerFacts.
Context {T : Types} {R : Runtime} {H : Helpers} {C : Codec}.

Lemma framePage_readonly handler c : readonly (framePage handler c).
Proof. unfold framePage, completion, redirect. readonly_steps. Qed.

Lemma ogImage_readonly handler c : readonly (ogImage handler c).
Proof. unfold ogImage, completion. readonly_steps. Qed.

Lemma devGet_readonly c : readonly (devGet c).
Proof. unfold devGet, fetch. readonly_steps. Qed.

Lemma devPost_readonly c : readonly (devPost c).
Proof. unfold devPost, unsafeUnwrap, completion, fetch. readonly_steps. Qed.

Lemma runHandler_readonly h c next :
  (forall c', readonly (next c')) -> readonly (runHandler h c next).
Proof.
  intros N. destruct h; cbn [runHandler].
  - apply framePage_readonly.
  - apply ogImage_readonly.
  - unfold devRenderer. apply N.
  - apply devGet_readonly.
  - apply devPost_readonly.
Qed.

Lemma compose_readonly hs : forall c, readonly (compose hs c).
Proof.
  induction hs as [| h rest IH]; intros c; cbn [compose].
  - exact I.
  - apply runHandler_readonly. exact IH.
Qed.

Lemma Farc_fetch_readonly req : readonly (Farc_fetch req).
Proof.
  unfold Farc_fetch, dispatch. apply readonly_bind.
  - apply readonly_trigger. reflexivity.
  - intros app. destruct (req_method req); try apply compose_readonly.
    apply readonly_bind; [apply compose_readonly | intros; exact I].
Qed.

End HandlerFacts.

(* ===================================================================== *)
(** ** Registration and the instance *)
(* ===================================================================== *)

Section Registration.
Context {T : Types} {R : Runtime} {H : Helpers} {C : Codec}.

(** C8. Serving a request, whichever of the frame, image and dev routes
    answers it, leaves the instance as it was: [#initialState] and the
    registered routes are the same after the request as before it, and the
    log of the request holds no write of a field of [this]. *)
Theorem request_leaves_instance_unchanged (w : World) (self : Farc)
  (req : HonoRequest) :
  let r := run w (Farc_fetch req) self in
  final r = self /\
  initialState (final r) = initialState self /\
  hono_routes (hono (final r)) = hono_routes (hono self) /\
  filter isWrite (log r) = [].
Proof.
  cbv zeta. unfold run.
  destruct (readonly_run w (Farc_fetch req) (Farc_fetch_readonly req) self [])
    as [F [added [L W]]].
  rewrite F, L. cbn [app]. auto.
Qed.

(** The same for one route handler run on its own, with any continuation
    that is itself read-only. *)
Lemma handler_leaves_instance_unchanged (w : World) (self : Farc)
  (h : RouteHandler) (c : Context) :
  final (run w (runHandler h c (fun _ => Ret NotFound)) self) = self.
Proof.
  unfold run.
  apply (readonly_run w _
           (runHandler_readonly h c (fun _ => Ret NotFound) (fun _ => I)) self []).
Qed.

(** C2, amended. [frame(path, handler)] appends five routes to the router,
    in this order and at paths merged with the router's base path: the
    frame page under ALL at [parsePath(path)], the image under GET at
    [parsePath(path) + '/image'], the layout middleware under ALL and the
    preview handlers under GET and POST at [parsePath(path) + '/dev']. It
    changes nothing else, and the frame page answers every method. *)
Theorem frame_registers_five_routes (w : World) (self : Farc) (path : string)
  (handler : Handler) :
  let r := run w (frame path handler) self in
  let at_ := mergePath (hono_basePath (hono self)) in
  let p := parsePath path in
  let added :=
    [ {| route_method := ALL; route_path := at_ p;
         route_handler := FramePage handler |};
      {| route_method := Only GET; route_path := at_ (p ++ "/image");
         route_handler := OgImage handler |};
      {| route_method := ALL; route_path := at_ (p ++ "/dev");
         route_handler := DevRenderer |};
      {| route_method := Only GET; route_path := at_ (p ++ "/dev");
         route_handler := DevGet |};
      {| route_method := Only POST; route_path := at_ (p ++ "/dev");
         route_handler := DevPost |} ] in
  hono_routes (hono (final r)) = List.app (hono_routes (hono self)) added /\
  registered w self path handler = added /\
  initialState (final r) = initialState self /\
  hono_basePath (hono (final r)) = hono_basePath (hono self) /\
  outcome r = Returned tt /\
  forall m : Method,
    existsb (serves m (at_ p)) (registered w self path handler) = true.
Proof.
  cbv zeta.
  match goal with
  | |- ?lhs = List.app ?old ?added /\ _ =>
      assert (E : lhs = List.app old added)
        by (unfold run, frame; cbn; rewrite <- !app_assoc; reflexivity);
      assert (G : registered w self path handler = added)
        by (unfold registered; rewrite E, skipn_app, skipn_all, Nat.sub_diag;
            reflexivity)
  end.
  split; [exact E |].
  split; [exact G |].
  split; [reflexivity |].
  split; [reflexivity |].
  split; [reflexivity |].
  intros m. rewrite G. cbn [existsb].
  unfold serves at 1. cbn [route_method route_path method_matches andb].
  rewrite String.eqb_refl. reflexivity.
Qed.

End Registration.

(** C2 as worded fails: after [frame("/app", h)] on a fresh instance a PUT
    request at [/app] is served (by the frame page, registered under ALL),
    and PUT at [/app] is none of the five method and path pairs. *)
Lemma put_is_served_by_frame_page :
  ~ @serves_exactly_the_five Demo.types Demo.runtime Demo.helpers
      Demo.everything_fine blank "/app" 0%nat.
Proof.
  intros Claim.
  destruct (Claim PUT "/app") as [Served _].
  specialize (Served eq_refl).
  cbn in Served.
  repeat (destruct Served as [Served | Served]; [discriminate Served |]).
  exact Served.
Qed.

(* ===================================================================== *)
(** ** The frame route and the image route *)
(* ===================================================================== *)

Section FrameRoute.
Context {T : Types} {R : Runtime} {H : Helpers} {C : Codec}.

(** The run of the frame route, written out: the previous context is
    decoded (the route throws if the decoder does), the world is asked for
    the request context, then for the frame context, and, unless the route
    redirects, for the result of the handler. The redirect throws when
    its location is no header value. *)
Lemma framePage_unfolded (w : World) (self : Farc) (handler : Handler)
  (c : Context) :
  let query := req_query (c_req c) in
  let baseUrl :=
    URL_origin (req_url (c_req c)) ++ URL_pathname (req_url (c_req c)) in
  let requestContext := w [] (RequestToContext (c_req c)) in
  let read :=
    [ entry (RequestToContext (c_req c)) requestContext;
      entry ThisInitialState (initialState self) ] in
  run w (framePage handler c) self =
    match decodePrevious query with
    | Abrupt e =>
        {| final := self; log := []; outcome := Thrown (Raised e) |}
    | Normal previous =>
        let parameters :=
          {| gfc_context := requestContext;
             gfc_initialState := initialState self;
             gfc_previousContext := previous;
             gfc_request := c_req c |} in
        let context := w read (GetFrameContext parameters) in
        let derived :=
          List.app read [entry (GetFrameContext parameters) context] in
        let call := CallHandler handler context previous in
        let result := w derived call in
        if String.eqb (ctx_url context) (parsePath (req_url (c_req c)))
        then {| final := self;
                log := List.app derived [entry call result];
                outcome :=
                  Returned
                    (render c (frameDocument query baseUrl context result)) |}
        else {| final := self;
                log := derived;
                outcome :=
                  match
                    Js.Headers_value
                      (ctx_url context ++ "?previousContext="
                       ++ Js.template (Js.lookup "previousContext" query))
                  with
                  | Some value => Returned (Redirect value)
                  | None => Thrown TypeError
                  end |}
    end.
Proof.
  cbv zeta. unfold run, framePage.
  destruct (decodePrevious (req_query (c_req c))) as [previous | e];
    cbn [completion bind trigger run_from perform app]; [| reflexivity].
  match goal with
  | |- context [String.eqb ?a ?b] => destruct (String.eqb a b)
  end; cbn [negb]; [reflexivity |].
  unfold redirect. destruct (Js.Headers_value _); reflexivity.
Qed.

(** What a run of the frame route does: it throws at the decoding of the
    previous context, before anything else, or it derives one context and
    then either calls [c.redirect] without calling the handler, or calls
    the handler once and renders the frame document. *)
Lemma framePage_cases (w : World) (self : Farc) (handler : Handler) (c : Context) :
  let query := req_query (c_req c) in
  let baseUrl :=
    URL_origin (req_url (c_req c)) ++ URL_pathname (req_url (c_req c)) in
  let r := run w (framePage handler c) self in
  (exists e,
     decodePrevious query = Abrupt e /\
     log r = [] /\ outcome r = Thrown (Raised e))
  \/
  (exists previous requestContext context,
     decodePrevious query = Normal previous /\
     let parameters :=
       {| gfc_context := requestContext;
          gfc_initialState := initialState self;
          gfc_previousContext := previous;
          gfc_request := c_req c |} in
     let derived :=
       [ entry (RequestToContext (c_req c)) requestContext;
         entry ThisInitialState (initialState self);
         entry (GetFrameContext parameters) context ] in
     (ctx_url context <> parsePath (req_url (c_req c)) /\
      log r = derived /\
      outcome r =
        match
          Js.Headers_value
            (ctx_url context ++ "?previousContext="
             ++ Js.template (Js.lookup "previousContext" query))
        with
        | Some value => Returned (Redirect value)
        | None => Thrown TypeError
        end)
     \/
     (ctx_url context = parsePath (req_url (c_req c)) /\
      exists result,
        log r =
          List.app derived [entry (CallHandler handler context previous) result] /\
        outcome r =
          Returned (render c (frameDocument query baseUrl context result)))).
Proof.
  pose proof (framePage_unfolded w self handler c) as U. cbv zeta in U.
  cbv zeta. rewrite U. clear U.
  destruct (decodePrevious (req_query (c_req c))) as [previous | e].
  - right. exists previous, (w [] (RequestToContext (c_req c))).
    match goal with
    | |- context [ctx_url (w ?l (GetFrameContext ?p))] =>
        exists (w l (GetFrameContext p))
    end.
    split; [reflexivity |].
    match goal with
    | |- context [String.eqb ?a ?b] => destruct (String.eqb a b) eqn:E
    end; cbn [log outcome].
    + right. split; [now apply String.eqb_eq |].
      eexists. split; reflexivity.
    + left. split; [now apply String.eqb_neq |]. split; reflexivity.
  - left. exists e. repeat split.
Qed.

(** C9, amended. When the URL of the derived context is not the parsed
    path of the request URL, the frame route does not call the handler; it
    calls [c.redirect] with the context URL followed by
    [?previousContext=] and the incoming [previousContext] query value as
    it is ([undefined] when the request has none). The response is a
    redirect to that location when the location is a header value, with
    the whitespace at its ends stripped: a location with none, and with
    no byte a header value may not hold, is the location of the redirect
    unchanged. A location that is no header value makes [c.redirect]
    throw, and the route returns no redirect: so does a NUL or a
    character above U+00FF anywhere in the incoming value, and a line
    feed or a carriage return that is not at its end. *)
Theorem frame_route_redirects (w : World) (self : Farc) (handler : Handler)
  (c : Context) (parameters : GetFrameContextParameters)
  (context : FrameContext) :
  let r := run w (framePage handler c) self in
  let incoming := Js.lookup "previousContext" (req_query (c_req c)) in
  let location :=
    ctx_url context ++ "?previousContext=" ++ Js.template incoming in
  In (parameters, context) (derivations (log r)) ->
  ctx_url context <> parsePath (req_url (c_req c)) ->
  handlerCalls (log r) = [] /\
  outcome r =
    match Js.Headers_value location with
    | Some value => Returned (Redirect value)
    | None => Thrown TypeError
    end /\
  (forall q, incoming = Some q ->
     location = ctx_url context ++ "?previousContext=" ++ q) /\
  (incoming = None ->
   location = ctx_url context ++ "?previousContext=undefined") /\
  (Js.every Js.header_byte location = true ->
   Js.starts_blank (ctx_url context) = false ->
   Js.ends_blank (Js.template incoming) = false ->
   outcome r = Returned (Redirect location)) /\
  (forall q before x after,
     incoming = Some q -> q = before ++ String x after ->
     Js.header_byte x = false ->
     Js.http_whitespace x = false \/
     (exists between y rest,
        after = between ++ String y rest /\ Js.http_whitespace y = false) ->
     outcome r = Thrown TypeError).
Proof.
  cbv zeta. intros D N.
  destruct (framePage_cases w self handler c)
    as [[e [_ [L _]]] | [previous [rc [ctx [_ Cases]]]]];
    [rewrite L in D; contradiction |].
  cbv zeta in Cases.
  destruct Cases as [[Ne [L O]] | [Eq [result [L O]]]].
  - rewrite L in D. cbn in D. destruct D as [D | []].
    injection D as _ D. subst ctx.
    rewrite O, L. split; [reflexivity |]. split; [reflexivity |].
    split; [| split; [| split]].
    + intros q Q. rewrite Q. reflexivity.
    + intros Q. rewrite Q. reflexivity.
    + intros Bytes Start End.
      rewrite Headers_value_kept; [reflexivity | exact Bytes | |].
      * rewrite starts_blank_app. destruct (ctx_url context); [reflexivity | exact Start].
      * cbn [append]. rewrite ends_blank_app.
        destruct (Js.template _) as [| t ts]; [reflexivity | exact End].
    + intros q before x after Q -> F [X | [between [y [rest [-> Y]]]]];
        rewrite Q; cbn [Js.template].
      * rewrite <- !append_assoc.
        now rewrite (Headers_value_refused _ x after X F).
      * change (ctx_url context ++ "?previousContext="
                ++ before ++ String x (between ++ String y rest))
          with (ctx_url context
                ++ String "?" (("previousContext=" ++ before)
                               ++ String x (between ++ String y rest))).
        now rewrite (Headers_value_refused_inside _ "?" _ x between y rest
                       eq_refl F Y).
  - rewrite L in D. cbn in D. destruct D as [D | []].
    injection D as _ D. subst ctx. contradiction.
Qed.

(** C10. When the frame route has called the handler, the page it renders
    carries a [fc:frame:image:aspect_ratio] meta tag whose content is the
    [imageAspectRatio] the handler returned, and ['1.91:1'] when the
    handler returned none. *)
Theorem frame_route_aspect_ratio (w : World) (self : Farc) (handler : Handler)
  (c : Context) (call : HandlerCall) :
  let r := run w (framePage handler c) self in
  In call (handlerCalls (log r)) ->
  exists document,
    outcome r = Returned (render c document) /\
    meta_content "fc:frame:image:aspect_ratio" (head_of document) =
      Some (match imageAspectRatio (call_result call) with
            | Some ratio => ratio
            | None => "1.91:1"
            end) /\
    nth_error (head_of document) 2 =
      Some (meta "fc:frame:image:aspect_ratio"
              (match imageAspectRatio (call_result call) with
               | Some ratio => ratio
               | None => "1.91:1"
               end)).
Proof.
  cbv zeta. intros In_call.
  destruct (framePage_cases w self handler c)
    as [[e [_ [L _]]] | [previous [rc [ctx [_ Cases]]]]];
    [rewrite L in In_call; contradiction |].
  cbv zeta in Cases.
  destruct Cases as [[Ne [L O]] | [Eq [result [L O]]]].
  - rewrite L in In_call. cbn in In_call. contradiction.
  - rewrite L in In_call. cbn in In_call. destruct In_call as [E | []].
    subst call. cbn [call_result].
    eexists. split; [exact O |]. split; reflexivity.
Qed.

End FrameRoute.

(** C9 as worded fails: an incoming [previousContext] with a line feed
    in it gives a location that is no header value; [c.redirect] throws,
    and the route returns no redirect. *)
Lemma no_redirect_with_a_line_feed :
  ~ @redirects_unchanged Demo.types Demo.runtime Demo.helpers Demo.codec
      Demo.context_elsewhere Demo.app 0%nat Demo.get_app_broken.
Proof.
  intros Claim.
  destruct (Claim Demo.derived_broken ("http://localhost/start", 0%nat))
    as [_ Out].
  - cbn. left. reflexivity.
  - cbn. discriminate.
  - cbn in Out. discriminate Out.
Qed.

Section PreviousContext.
Context {T : Types} {R : Runtime} {H : Helpers} {C : Codec}.

(** C4. When the frame route has called the handler, the page it renders
    has a [fc:frame:post_url] meta tag whose URL ends in the query string
    made of the one parameter [previousContext]; its value is the
    serialization of the current context together with the parsed intents
    and the snapshot [context.deriveState()] (the parameter is left out
    when that serialization is the empty string). Replacing the serializer
    of previous contexts by any other changes nothing in the run but this
    one meta tag, and the run leaves the instance as it was. *)
Theorem frame_route_carries_previous_context (w : World) (self : Farc)
  (handler : Handler) (c : Context) (call : HandlerCall) :
  let r := run w (framePage handler c) self in
  In call (handlerCalls (log r)) ->
  let context := call_context call in
  let carried :=
    {| prev_context := context;
       prev_intents := option_map parseIntents (intents (call_result call));
       prev_previousState := ctx_deriveState context |} in
  let serialized := serializeJson TPrevious carried in
  let target :=
    match action (call_result call) with
    | Some a =>
        if Js.truthy a
        then (URL_origin (req_url (c_req c))
              ++ URL_pathname (req_url (c_req c))) ++ parsePath a
        else ctx_url context
    | None => ctx_url context
    end in
  exists document,
    outcome r = Returned (render c document) /\
    meta_content "fc:frame:post_url" (head_of document) =
      Some (target ++ "?" ++
            Js.toString (if Js.truthy serialized
                         then [("previousContext", serialized)] else [])) /\
    (Js.truthy serialized = true ->
     meta_content "fc:frame:post_url" (head_of document) =
       Some (target ++ "?previousContext=" ++ Js.form_encode serialized)) /\
    (forall f : PreviousFrameContext -> string,
       let r' :=
         run w (framePage (C := with_previous_serializer f) handler c) self in
       exists document',
         outcome r' = Returned (render c document') /\
         without_meta "fc:frame:post_url" document' =
           without_meta "fc:frame:post_url" document /\
         log r' = log r /\ final r' = final r) /\
    final r = self.
Proof.
  cbv zeta. intros In_call.
  pose proof (framePage_unfolded w self handler c) as U. cbv zeta in U.
  assert (P : forall (o : option (list Intent)),
             match o with Some i => Some (parseIntents i) | None => None end =
             option_map parseIntents o) by (intros [x |]; reflexivity).
  rewrite U in In_call |- *.
  pose proof (fun f => @framePage_unfolded T R H (with_previous_serializer f)
                          w self handler c) as Over.
  cbv zeta in Over.
  destruct (decodePrevious (req_query (c_req c))) as [previous | e] eqn:D;
    [| contradiction].
  match goal with
  | |- context [String.eqb ?a ?b] => destruct (String.eqb a b) eqn:E
  end; cbn [log outcome final] in In_call |- *.
  - cbn in In_call. destruct In_call as [<- | []].
    cbn [call_result call_context].
    eexists. split; [reflexivity |].
    split; [| split; [| split]].
    + unfold frameDocument, frameHead. cbn [head_of app]. rewrite P.
      destruct (Js.truthy (serializeJson TPrevious _)); reflexivity.
    + intros Tr.
      unfold frameDocument, frameHead. cbn [head_of app]. rewrite P, Tr.
      reflexivity.
    + intros f. rewrite (Over f).
      change (@decodePrevious T (with_previous_serializer f))
        with (@decodePrevious T C).
      rewrite D, E. cbn [log outcome final].
      eexists. split; [reflexivity |].
      split; [| split; reflexivity].
      unfold frameDocument, frameHead, without_meta. cbn [app].
      reflexivity.
    + reflexivity.
  - cbn in In_call. contradiction.
Qed.

End PreviousContext.

Section Decoding.
Context {T : Types} {R : Runtime} {H : Helpers} {C : Codec}.

(** The run of the image route, written out: the previous context and
    then the context are decoded (the route throws if the decoder does),
    the world is asked for the frame context and for the result of the
    handler. *)
Lemma ogImage_unfolded (w : World) (self : Farc) (handler : Handler)
  (c : Context) :
  let query := req_query (c_req c) in
  let read := [ entry ThisInitialState (initialState self) ] in
  run w (ogImage handler c) self =
    match decodePrevious query with
    | Abrupt e =>
        {| final := self; log := []; outcome := Thrown (Raised e) |}
    | Normal previous =>
        match deserializeJson TContext (Js.lookup "context" query) with
        | Abrupt e =>
            {| final := self; log := []; outcome := Thrown (Raised e) |}
        | Normal queryContext =>
            let parameters :=
              {| gfc_context := queryContext;
                 gfc_initialState := initialState self;
                 gfc_previousContext := previous;
                 gfc_request := c_req c |} in
            let context := w read (GetFrameContext parameters) in
            let derived :=
              List.app read [entry (GetFrameContext parameters) context] in
            let call := CallHandler handler context previous in
            let result := w derived call in
            {| final := self;
               log := List.app derived [entry call result];
               outcome := Returned (ImageResponse (image result)) |}
        end
    end.
Proof.
  cbv zeta. unfold run, ogImage.
  destruct (decodePrevious (req_query (c_req c))) as [previous | e];
    cbn [completion bind trigger run_from perform app]; [| reflexivity].
  destruct (deserializeJson TContext _) as [queryContext | e];
    cbn [completion bind trigger run_from perform app]; reflexivity.
Qed.

(** C7. In the frame route and in the image route, the [previousContext]
    given to [getFrameContext] and to the handler is [undefined] when the
    request has no [previousContext] query parameter (or an empty one),
    and otherwise exactly what [deserializeJson] returned for the
    parameter: nothing is checked or replaced between the decoder and its
    two consumers. When the decoder throws, the route throws the same
    before anything else is called: there is no recovery. *)
Theorem previous_context_is_decoded_or_undefined (w : World) (self : Farc)
  (handler : Handler) (c : Context) :
  let query := req_query (c_req c) in
  let frame_run := run w (framePage handler c) self in
  let image_run := run w (ogImage handler c) self in
  let passes (previous : option PreviousFrameContext) :=
    (collect passedPrevious (log frame_run) = [previous] \/
     collect passedPrevious (log frame_run) = [previous; previous]) /\
    (collect passedPrevious (log image_run) = [previous; previous] \/
     exists e,
       deserializeJson TContext (Js.lookup "context" query) = Abrupt e /\
       outcome image_run = Thrown (Raised e) /\ log image_run = []) in
  let throws (e : JsError) :=
    outcome frame_run = Thrown (Raised e) /\ log frame_run = [] /\
    outcome image_run = Thrown (Raised e) /\ log image_run = [] in
  match Js.lookup "previousContext" query with
  | None => passes None
  | Some q =>
      if Js.truthy q then
        match deserializeJson TPrevious (Some q) with
        | Normal previous => passes (Some previous)
        | Abrupt e => throws e
        end
      else passes None
  end.
Proof.
  cbv zeta. rewrite framePage_unfolded, ogImage_unfolded. cbv zeta.
  unfold decodePrevious.
  destruct (Js.lookup "previousContext" (req_query (c_req c))) as [q |];
    [destruct (Js.truthy q);
     [destruct (deserializeJson TPrevious (Some q)) as [previous | e] |] |].
  all: try (repeat split; reflexivity).
  all: split;
    [ match goal with
      | |- context [String.eqb ?a ?b] => destruct (String.eqb a b)
      end; [right | left]; reflexivity
    | destruct (deserializeJson TContext _) as [queryContext | e];
      [left; reflexivity | right; exists e; repeat split] ].
Qed.

(** C6. With [parseIntents] as the spec has it (the tags of an intent
    depend on the intent and its position), the head of the page the frame
    route renders is: the five frame tags, then the tags of the intents the
    handler returned, intent after intent in the order of the list, then
    the [farc:context] tag and, for a request with a non-empty
    [previousContext], the [farc:prev_context] tag, and nothing else. With
    no intents returned (none, or an empty list) nothing stands between
    [fc:frame:post_url] and [farc:context]. *)
Theorem frame_route_intent_tags (tags : nat -> Intent -> list Node)
  (w : World) (self : Farc) (handler : Handler) (c : Context)
  (call : HandlerCall) :
  let r := run w (framePage (H := with_positional_intents tags) handler c) self in
  In call (handlerCalls (log r)) ->
  let intentTags :=
    match intents (call_result call) with
    | Some l => positional tags 0 l
    | None => []
    end in
  let previousTags :=
    match Js.lookup "previousContext" (req_query (c_req c)) with
    | Some q => if Js.truthy q then [meta "farc:prev_context" q] else []
    | None => []
    end in
  exists document imageUrl ratio postUrl,
    outcome r = Returned (render c document) /\
    head_of document =
      List.app
        [ meta "fc:frame" "vNext";
          meta "fc:frame:image" imageUrl;
          meta "fc:frame:image:aspect_ratio" ratio;
          meta "og:image" imageUrl;
          meta "fc:frame:post_url" postUrl ]
        (List.app intentTags
           (meta "farc:context" (serializeJson TContext (call_context call))
            :: previousTags)) /\
    (forall before i after,
       intents (call_result call) = Some (List.app before (i :: after)) ->
       intentTags =
         List.app (positional tags 0 before)
           (List.app (tags (length before) i)
              (positional tags (S (length before)) after))) /\
    (intents (call_result call) = None \/ intents (call_result call) = Some [] ->
     intentTags = []).
Proof.
  cbv zeta. intros In_call.
  rewrite (@framePage_unfolded T R (with_positional_intents tags) C) in *.
  cbv zeta in In_call |- *.
  destruct (decodePrevious (req_query (c_req c))) as [previous | e];
    [| contradiction].
  match goal with
  | |- context [String.eqb ?a ?b] => destruct (String.eqb a b) eqn:E
  end; cbn [log outcome final] in In_call |- *.
  - cbn in In_call. destruct In_call as [<- | []].
    cbn [call_result call_context].
    do 4 eexists. split; [reflexivity |].
    split; [| split].
    + unfold frameDocument, frameHead. cbn [head_of app parseIntents
        with_positional_intents].
      repeat f_equal.
      match goal with
      | |- context [intents ?x] => destruct (intents x); reflexivity
      end.
    + intros before i after ->.
      assert (G : forall n, positional tags n (List.app before (i :: after)) =
                List.app (positional tags n before)
                  (List.app (tags (n + length before) i)
                     (positional tags (S (n + length before)) after))).
      { clear. induction before as [| b before IH]; intros n; cbn [positional app length].
        - now rewrite Nat.add_0_r.
        - rewrite IH, <- app_assoc, Nat.add_succ_r. reflexivity. }
      apply (G 0).
    + intros [-> | ->]; reflexivity.
  - cbn in In_call. contradiction.
Qed.

End Decoding.

(* ===================================================================== *)
(** ** The developer preview *)
(* ===================================================================== *)

Section DevPost.
Context {T : Types} {R : Runtime} {H : Helpers} {C : Codec}.

(** The run of the preview POST handler, written out. *)
Lemma devPost_unfolded (w : World) (self : Farc) (c : Context) :
  let baseUrl := Js.replace "/dev" "" (req_url (c_req c)) in
  let routes := getRoutes baseUrl (inspectRoutes (hono self)) in
  let key := w [] RandomPrivateKey in
  let keyed := [ entry RandomPrivateKey key ] in
  run w (devPost c) self =
    match req_formData (c_req c) with
    | Abrupt e =>
        {| final := self; log := []; outcome := Thrown (Raised e) |}
    | Normal formData =>
        let sign :=
          MakeFrameAction (devFrameActionBody c formData)
            {| data_fid := 2; data_network := 1 |} (NobleEd25519Signer key) in
        let signed := List.app keyed [entry sign (w keyed sign)] in
        match w keyed sign with
        | Err e =>
            {| final := self; log := signed;
               outcome := Thrown (UnsafeUnwrap e) |}
        | Ok message =>
            match Js.lookup "postUrl" formData with
            | None =>
                {| final := self; log := signed; outcome := Thrown TypeError |}
            | Some postUrl =>
                let post :=
                  Fetch (Some postUrl)
                    (Some {| init_method := "POST";
                             init_body :=
                               JSON_stringify
                                 (devFramePost c formData message) |}) in
                let response := w signed post in
                let posted := List.app signed [entry post response] in
                if (status response =? 200)%Z then
                  {| final := self;
                     log := List.app posted [entry ThisHono (hono self)];
                     outcome :=
                       Returned (render c (Comp (Preview
                         {| preview_baseUrl := baseUrl;
                            preview_error := None;
                            preview_frame := htmlToFrame (body response);
                            preview_routes := routes;
                            preview_state := htmlToState (body response) |}))) |}
                else
                  let again := Fetch (Some baseUrl) None in
                  let fallback := w posted again in
                  {| final := self;
                     log :=
                       List.app (List.app posted [entry again fallback])
                                [entry ThisHono (hono self)];
                     outcome :=
                       Returned (render c (Comp (Preview
                         {| preview_baseUrl := baseUrl;
                            preview_error := Some (statusText response);
                            preview_frame := htmlToFrame (body fallback);
                            preview_routes := routes;
                            preview_state := htmlToState (body fallback) |}))) |}
            end
        end
    end.
Proof.
  cbv zeta. unfold run, devPost.
  destruct (req_formData (c_req c)) as [formData | e];
    cbn [completion bind trigger run_from perform app]; [| reflexivity].
  destruct (w _ (MakeFrameAction _ _ _)) as [message | e];
    cbn [unsafeUnwrap bind trigger run_from perform app]; [| reflexivity].
  destruct (Js.lookup "postUrl" formData) as [postUrl |];
    cbn [fetch bind trigger run_from perform app]; [| reflexivity].
  destruct (status _ =? 200)%Z;
    cbn [negb fetch bind trigger run_from perform app]; reflexivity.
Qed.

(** C1. Once the callback request of the preview POST handler has been
    answered: with a status other than 200, the handler fetches the page
    URL (the request URL with its first ['/dev'] removed) once and with no
    options, the [Preview] gets the frame and the state read from the body
    of that second response, and its [error] is the status text of the
    first response; with status 200 there is no second fetch, the
    [Preview] is built from the body of the callback response, and its
    [error] is undefined. *)
Theorem dev_post_falls_back_once (w : World) (self : Farc) (c : Context)
  (call : FetchCall) (rest : list FetchCall) :
  let r := run w (devPost c) self in
  let baseUrl := Js.replace "/dev" "" (req_url (c_req c)) in
  let routes := getRoutes baseUrl (inspectRoutes (hono self)) in
  fetches (log r) = call :: rest ->
  let response := fetch_response call in
  (exists formData,
     req_formData (c_req c) = Normal formData /\
     fetch_input call = Js.lookup "postUrl" formData) /\
  isPost call = true /\
  (status response <> 200%Z ->
   exists fallback,
     rest = [ {| fetch_input := Some baseUrl; fetch_init := None;
                 fetch_response := fallback |} ] /\
     outcome r =
       Returned (render c (Comp (Preview
         {| preview_baseUrl := baseUrl;
            preview_error := Some (statusText response);
            preview_frame := htmlToFrame (body fallback);
            preview_routes := routes;
            preview_state := htmlToState (body fallback) |})))) /\
  (status response = 200%Z ->
   rest = [] /\
   outcome r =
     Returned (render c (Comp (Preview
       {| preview_baseUrl := baseUrl;
          preview_error := None;
          preview_frame := htmlToFrame (body response);
          preview_routes := routes;
          preview_state := htmlToState (body response) |})))).
Proof.
  cbv zeta. rewrite devPost_unfolded. cbv zeta.
  destruct (req_formData (c_req c)) as [formData | e];
    [| cbn; intros F; discriminate F].
  destruct (w _ (MakeFrameAction _ _ _)) as [message | e];
    [| cbn; intros F; discriminate F].
  destruct (Js.lookup "postUrl" formData) as [postUrl |] eqn:Url;
    [| cbn; intros F; discriminate F].
  destruct (status _ =? 200)%Z eqn:S; cbn [log outcome]; cbn; intros F;
    injection F as <- <-; cbn [fetch_response fetch_input isPost fetch_init
                                 init_method];
    (split; [exists formData; split; [reflexivity | now rewrite Url] |]);
    (split; [reflexivity |]); split; intros St.
  - apply Z.eqb_eq in S. contradiction.
  - split; reflexivity.
  - eexists. split; reflexivity.
  - apply Z.eqb_neq in S. contradiction.
Qed.


End DevPost.

(** Case analysis on the 256 characters. *)
Ltac each_char c := destruct c as [[|] [|] [|] [|] [|] [|] [|] [|]].

(* ===================================================================== *)
(** ** Query strings are read back as written *)
(* ===================================================================== *)

Section QueryFacts.

Lemma form_encode_cons (c : ascii) (r : string) :
  Js.form_encode (String c r) = Query.form_piece c ++ Js.form_encode r.
Proof.
  unfold Query.form_piece. cbn [Js.form_encode].
  destruct (Js.form_safe c); [reflexivity |].
  destruct (Ascii.eqb c " "); reflexivity.
Qed.

Lemma form_decode_piece (c : ascii) (t : string) :
  Query.form_decode (Query.form_piece c ++ t) = String c (Query.form_decode t).
Proof. each_char c; reflexivity. Qed.

Lemma form_decode_encode (s : string) :
  Query.form_decode (Js.form_encode s) = s.
Proof.
  induction s as [| c r IH]; [reflexivity |].
  rewrite form_encode_cons, form_decode_piece, IH. reflexivity.
Qed.

Lemma free_append (c : ascii) (a b : string) :
  Query.free c (a ++ b) = Query.free c a && Query.free c b.
Proof.
  induction a as [| x a IH]; cbn; [reflexivity |].
  rewrite IH. now rewrite andb_assoc.
Qed.

Lemma form_piece_free (c : ascii) :
  Query.free "&" (Query.form_piece c) = true /\ Query.free "=" (Query.form_piece c) = true.
Proof. each_char c; split; reflexivity. Qed.

Lemma form_encode_free (s : string) :
  Query.free "&" (Js.form_encode s) = true /\
  Query.free "=" (Js.form_encode s) = true.
Proof.
  induction s as [| c r [IH1 IH2]]; [split; reflexivity |].
  rewrite form_encode_cons, !free_append, IH1, IH2.
  destruct (form_piece_free c) as [-> ->]. split; reflexivity.
Qed.

Lemma split_free (sep : ascii) (a : string) :
  Query.free sep a = true -> Query.split sep a = [a].
Proof.
  induction a as [| x a IH]; cbn; [reflexivity |].
  destruct (Ascii.eqb x sep); cbn; [discriminate |].
  intros F. now rewrite (IH F).
Qed.

Lemma split_append (sep : ascii) (a b : string) :
  Query.free sep a = true ->
  Query.split sep (a ++ String sep b) = a :: Query.split sep b.
Proof.
  induction a as [| x a IH]; cbn.
  - now rewrite Ascii.eqb_refl.
  - destruct (Ascii.eqb x sep); cbn; [discriminate |].
    intros F. now rewrite (IH F).
Qed.

Lemma cut_append (a b : string) :
  Query.free "=" a = true -> Query.cut (a ++ String "=" b) = (a, b).
Proof.
  induction a as [| x a IH]; cbn [append Query.cut Query.free].
  - reflexivity.
  - destruct (Ascii.eqb x "="); cbn; [discriminate |].
    intros F. now rewrite (IH F).
Qed.

Lemma pair_text_free (kv : string * string) :
  Query.free "&" (Query.pair_text kv) = true.
Proof.
  unfold Query.pair_text. rewrite !free_append.
  destruct (form_encode_free (fst kv)) as [-> _].
  destruct (form_encode_free (snd kv)) as [-> _]. reflexivity.
Qed.

Lemma pair_text_truthy (kv : string * string) : Js.truthy (Query.pair_text kv) = true.
Proof.
  unfold Query.pair_text. destruct (Js.form_encode (fst kv)); reflexivity.
Qed.

Lemma parse_pair_text (kv : string * string) :
  Query.parse_pair (Query.pair_text kv) = kv.
Proof.
  unfold Query.parse_pair, Query.pair_text. cbn [append].
  rewrite cut_append by apply form_encode_free.
  rewrite !form_decode_encode. now destruct kv.
Qed.

Lemma split_join (p : string * string) (ps : list (string * string)) :
  Query.split "&" (Js.join "&" (map Query.pair_text (p :: ps))) =
  map Query.pair_text (p :: ps).
Proof.
  revert p. induction ps as [| q ps IH]; intros p.
  - cbn [map Js.join]. apply split_free, pair_text_free.
  - change (Js.join "&" (map Query.pair_text (p :: q :: ps)))
      with (Query.pair_text p ++ String "&" (Js.join "&" (map Query.pair_text (q :: ps)))).
    rewrite split_append by apply pair_text_free.
    rewrite IH. reflexivity.
Qed.

(** [URLSearchParams.toString] followed by the reading of the query gives
    the parameters back. *)
Lemma parse_toString (ps : Js.URLSearchParams) :
  Query.read_query (Js.toString ps) = ps.
Proof.
  unfold Query.read_query, Js.toString.
  change (fun kv : string * string =>
            Js.form_encode (fst kv) ++ "=" ++ Js.form_encode (snd kv))
    with Query.pair_text.
  destruct ps as [| p ps]; [reflexivity |].
  rewrite split_join.
  induction (p :: ps) as [| q l IH]; [reflexivity |].
  cbn [map filter]. rewrite pair_text_truthy. cbn [map].
  rewrite parse_pair_text, IH. reflexivity.
Qed.

End QueryFacts.

(* ===================================================================== *)
(** ** The codec reads back what it writes *)
(* ===================================================================== *)

Module JsonFacts.
Import JsonCodec.

(** *** Percent-encoding *)

Lemma uri_encode_cons (c : ascii) (r : string) :
  encodeURIComponent (String c r) =
  (if unreserved c then String c EmptyString else Js.percent c)
  ++ encodeURIComponent r.
Proof. cbn [encodeURIComponent]. destruct (unreserved c); reflexivity. Qed.

Lemma uri_decode_piece (c : ascii) (t : string) :
  decodeURIComponent
    ((if unreserved c then String c EmptyString else Js.percent c) ++ t) =
  option_map (String c) (decodeURIComponent t).
Proof. each_char c; reflexivity. Qed.

Lemma uri_decode_encode (s : string) :
  decodeURIComponent (encodeURIComponent s) = Some s.
Proof.
  induction s as [| c r IH]; [reflexivity |].
  rewrite uri_encode_cons, uri_decode_piece, IH. reflexivity.
Qed.

Lemma url_safe_append (a b : string) :
  url_safe (a ++ b) = url_safe a && url_safe b.
Proof.
  unfold url_safe.
  induction a as [| x a IH]; cbn; [reflexivity |].
  rewrite IH. now rewrite andb_assoc.
Qed.

Lemma url_safe_piece (c : ascii) :
  url_safe (if unreserved c then String c EmptyString else Js.percent c) = true.
Proof. each_char c; reflexivity. Qed.

Lemma encodeURIComponent_url_safe (s : string) :
  url_safe (encodeURIComponent s) = true.
Proof.
  induction s as [| c r IH]; [reflexivity |].
  rewrite uri_encode_cons, url_safe_append, url_safe_piece, IH. reflexivity.
Qed.

(** *** Strings *)

Lemma string_body_escape_char (c : ascii) (t : string) :
  string_body (escape_char c ++ t) =
  match string_body t with
  | Some (u, after) => Some (String c u, after)
  | None => None
  end.
Proof. each_char c; reflexivity. Qed.

Lemma string_body_escape (s rest : string) :
  string_body (escape s ++ String dquote rest) = Some (s, rest).
Proof.
  induction s as [| c r IH]; [reflexivity |].
  cbn [escape]. rewrite append_assoc, string_body_escape_char, IH.
  reflexivity.
Qed.

Lemma quote_append (s rest : string) :
  quote s ++ rest = String dquote (escape s ++ String dquote rest).
Proof. unfold quote. cbn [append]. now rewrite append_assoc. Qed.

(** *** Numbers *)

Lemma uint_text_digits (d : Decimal.uint) :
  all_chars number_char (NilEmpty.string_of_uint d) = true.
Proof. induction d; cbn; auto. Qed.

Lemma number_text_chars (n : Z) : all_chars number_char (number_text n) = true.
Proof.
  unfold number_text.
  destruct (Z.to_int n) as [d | d]; cbn [NilZero.string_of_int].
  - destruct d; try reflexivity; apply (uint_text_digits (_ d)).
  - cbn [all_chars]. destruct d; try reflexivity; apply (uint_text_digits (_ d)).
Qed.

Lemma number_text_read (n : Z) :
  NilZero.int_of_string (number_text n) = Some (Z.to_int n).
Proof.
  unfold number_text. apply NilZero.isi; destruct n; cbn; try discriminate;
    intros E; injection E as E;
    exact (DecimalPos.Unsigned.to_uint_nonnil _ E).
Qed.

Lemma number_text_first (n : Z) :
  exists c r, number_text n = String c r /\ number_char c = true.
Proof.
  pose proof (number_text_chars n) as Chars.
  pose proof (number_text_read n) as Read.
  destruct (number_text n) as [| c r]; [discriminate Read |].
  exists c, r. split; [reflexivity |].
  cbn in Chars. now apply andb_prop in Chars.
Qed.

Lemma number_prefix_append (a rest : string) :
  all_chars number_char a = true -> value_ends rest = true ->
  number_prefix (a ++ rest) = (a, rest).
Proof.
  intros A E. induction a as [| c a IH]; cbn [append].
  - destruct rest as [| c r]; [reflexivity |].
    cbn [number_prefix]. unfold value_ends in E. fold (number_char c) in E.
    destruct (number_char c); [discriminate E | reflexivity].
  - cbn in A. apply andb_prop in A as [Ac Aa].
    cbn [number_prefix]. rewrite Ac, (IH Aa). reflexivity.
Qed.

Lemma number_read (n : Z) (rest : string) :
  value_ends rest = true ->
  number (number_text n ++ rest) = Some (JNumber n, rest).
Proof.
  intros E. unfold number.
  rewrite (number_prefix_append _ _ (number_text_chars n) E).
  rewrite number_text_read, DecimalZ.of_to. reflexivity.
Qed.

(** A text that starts with a sign or a digit is read as a number. *)
Lemma value_number (fuel : nat) (c : ascii) (r : string) :
  number_char c = true -> value (S fuel) (String c r) = number (String c r).
Proof. each_char c; try discriminate; reflexivity. Qed.


(** *** Values *)

Lemma stringify_array (x : Json) (l : list Json) :
  stringify (JArray (x :: l)) = String "[" (stringify x ++ more_elements l).
Proof. reflexivity. Qed.

Lemma stringify_object (m : string * Json) (l : list (string * Json)) :
  stringify (JObject (m :: l)) = String "{" (member_text m ++ more_members l).
Proof.
  destruct m as [k x]. cbn [stringify]. unfold member_text. cbn [fst snd].
  rewrite append_assoc. cbn [append].
  do 4 f_equal.
  induction l as [| [k' y] l IH]; [reflexivity |].
  cbn [more_members]. unfold member_text. cbn [fst snd].
  rewrite append_assoc. cbn [append].
  now rewrite IH.
Qed.

(** No value text starts with a closing bracket. *)
Lemma stringify_first (j : Json) (t : string) :
  exists c r, stringify j ++ t = String c r /\ Ascii.eqb c "]" = false.
Proof.
  destruct j as [| [|] | n | s | [| x l] | [| m l]];
    try (do 2 eexists; split; [reflexivity | reflexivity]).
  - destruct (number_text_first n) as [c [r [E N]]].
    exists c, (r ++ t). cbn [stringify]. rewrite E. split; [reflexivity |].
    revert N. clear. each_char c; try discriminate; reflexivity.
Qed.

Lemma stringify_nonempty (j : Json) : 1 <= String.length (stringify j).
Proof.
  destruct (stringify_first j EmptyString) as [c [r [E _]]].
  rewrite append_empty_r in E. rewrite E. cbn. lia.
Qed.

Lemma value_empty (fuel : nat) : value fuel EmptyString = None.
Proof. destruct fuel; reflexivity. Qed.

Lemma member_empty (fuel : nat) : member fuel EmptyString = None.
Proof. destruct fuel; reflexivity. Qed.

Lemma value_array (fuel : nat) (r : string) :
  (forall c r', r = String c r' -> Ascii.eqb c "]" = false) ->
  value (S fuel) (String "[" r) =
  match value fuel r with
  | Some (x, after) =>
      match elements fuel after with
      | Some (xs, after') => Some (JArray (x :: xs), after')
      | None => None
      end
  | None => None
  end.
Proof.
  intros First. destruct r as [| c r'].
  - now rewrite value_empty.
  - cbn. now rewrite (First c r' eq_refl).
Qed.

Lemma value_object (fuel : nat) (r : string) :
  (forall c r', r = String c r' -> Ascii.eqb c "}" = false) ->
  value (S fuel) (String "{" r) =
  match member fuel r with
  | Some (m, after) =>
      match members fuel after with
      | Some (ms, after') => Some (JObject (m :: ms), after')
      | None => None
      end
  | None => None
  end.
Proof.
  intros First. destruct r as [| c r'].
  - now rewrite member_empty.
  - cbn. now rewrite (First c r' eq_refl).
Qed.

Lemma more_elements_ends (l : list Json) (rest : string) :
  value_ends (more_elements l ++ rest) = true.
Proof. destruct l; reflexivity. Qed.

Lemma more_members_ends (l : list (string * Json)) (rest : string) :
  value_ends (more_members l ++ rest) = true.
Proof. destruct l; reflexivity. Qed.

Lemma member_text_append (m : string * Json) (rest : string) :
  member_text m ++ rest =
  String dquote
    (escape (fst m) ++ String dquote (String ":" (stringify (snd m) ++ rest))).
Proof.
  unfold member_text. rewrite append_assoc. cbn [append].
  now rewrite quote_append.
Qed.

(** With fuel for the length of the text, every text written by
    [stringify] is read back as the value it was written from, and what
    follows the text is left over. *)
Lemma read_back (fuel : nat) :
  (forall j rest,
     String.length (stringify j) <= fuel -> value_ends rest = true ->
     value fuel (stringify j ++ rest) = Some (j, rest)) /\
  (forall l rest,
     String.length (more_elements l) <= fuel ->
     elements fuel (more_elements l ++ rest) = Some (l, rest)) /\
  (forall m rest,
     String.length (member_text m) <= fuel -> value_ends rest = true ->
     member fuel (member_text m ++ rest) = Some (m, rest)) /\
  (forall l rest,
     String.length (more_members l) <= fuel ->
     members fuel (more_members l ++ rest) = Some (l, rest)).
Proof.
  induction fuel as [| fuel [IHv [IHe [IHm IHms]]]].
  - repeat split.
    + intros j rest L. pose proof (stringify_nonempty j). lia.
    + intros [| y l] rest L; cbn in L; lia.
    + intros m rest L. unfold member_text, quote in L. cbn in L. lia.
    + intros [| y l] rest L; cbn in L; lia.
  - repeat split.
    + intros j rest L E.
      destruct j as [| [|] | n | s | [| x l] | [| m l]].
      * reflexivity.
      * reflexivity.
      * reflexivity.
      * destruct (number_text_first n) as [c [r [Text N]]].
        cbn [stringify]. pose proof (number_read n rest E) as Read.
        rewrite Text in Read |- *. cbn [append] in Read |- *.
        now rewrite value_number.
      * cbn [stringify]. rewrite quote_append.
        change (value (S fuel) (String dquote ?t))
          with (match string_body t with
                | Some (t', after) => Some (JString t', after)
                | None => None
                end).
        now rewrite string_body_escape.
      * reflexivity.
      * rewrite stringify_array in L |- *. cbn [append String.length] in L |- *.
        rewrite length_append in L. rewrite append_assoc.
        rewrite value_array.
        -- rewrite IHv by (lia || apply more_elements_ends).
           rewrite IHe by lia. reflexivity.
        -- intros c r' Eq.
           destruct (stringify_first x (more_elements l ++ rest))
             as [c0 [r0 [Eq0 F]]].
           rewrite Eq in Eq0. injection Eq0 as -> _. exact F.
      * reflexivity.
      * rewrite stringify_object in L |- *. cbn [append String.length] in L |- *.
        rewrite length_append in L. rewrite append_assoc.
        rewrite value_object.
        -- rewrite IHm by (lia || apply more_members_ends).
           rewrite IHms by lia. reflexivity.
        -- intros c r' Eq. rewrite member_text_append in Eq.
           injection Eq as <- _. reflexivity.
    + intros [| y l] rest L.
      * reflexivity.
      * cbn [more_elements append String.length] in L |- *.
        rewrite length_append in L. rewrite append_assoc.
        change (elements (S fuel) (String "," ?t))
          with (match value fuel t with
                | Some (x, after) =>
                    match elements fuel after with
                    | Some (xs, after') => Some (x :: xs, after')
                    | None => None
                    end
                | None => None
                end).
        rewrite IHv by (lia || apply more_elements_ends).
        rewrite IHe by lia. reflexivity.
    + intros [k x] rest L E.
      rewrite member_text_append. cbn [fst snd].
      unfold member_text, quote in L. cbn [fst snd append String.length] in L.
      rewrite !length_append in L. cbn [String.length] in L.
      change (member (S fuel) (String dquote ?t))
        with (match string_body t with
              | Some (k', String c' after) =>
                  if Ascii.eqb c' ":" then
                    match value fuel after with
                    | Some (x', after') => Some ((k', x'), after')
                    | None => None
                    end
                  else None
              | _ => None
              end).
      rewrite string_body_escape. cbn [Ascii.eqb Bool.eqb].
      rewrite IHv by (lia || exact E). reflexivity.
    + intros [| m l] rest L.
      * reflexivity.
      * cbn [more_members append String.length] in L |- *.
        rewrite length_append in L. rewrite append_assoc.
        change (members (S fuel) (String "," ?t))
          with (match member fuel t with
                | Some (m', after) =>
                    match members fuel after with
                    | Some (ms, after') => Some (m' :: ms, after')
                    | None => None
                    end
                | None => None
                end).
        rewrite IHm by (lia || apply more_members_ends).
        rewrite IHms by lia. reflexivity.
Qed.

Lemma parse_stringify (j : Json) : parse (stringify j) = Some j.
Proof.
  unfold parse.
  destruct (read_back (S (String.length (stringify j)))) as [Value _].
  specialize (Value j EmptyString). rewrite append_empty_r in Value.
  rewrite Value by (lia || reflexivity). reflexivity.
Qed.

Lemma lookup_set (name data : string) (params : Js.URLSearchParams) :
  Js.lookup name (Js.set name data params) = Some data.
Proof.
  induction params as [| [k v] params IH]; cbn [Js.set Js.lookup].
  - now rewrite String.eqb_refl.
  - destruct (String.eqb name k) eqn:E; cbn [Js.lookup]; rewrite ?E.
    + now rewrite String.eqb_refl.
    + exact IH.
Qed.

Lemma remove_key_lookup (name other : string) (params : Js.URLSearchParams) :
  String.eqb other name = false ->
  Js.lookup name (Js.remove_key other params) = Js.lookup name params.
Proof.
  intros Ne. induction params as [| [k v] params IH]; [reflexivity |].
  cbn [Js.remove_key Js.lookup].
  destruct (String.eqb other k) eqn:E.
  - apply String.eqb_eq in E. subst k.
    rewrite String.eqb_sym in Ne. rewrite Ne. exact IH.
  - cbn [Js.lookup]. now rewrite IH.
Qed.

Lemma lookup_set_other (name other data : string) (params : Js.URLSearchParams) :
  String.eqb other name = false ->
  Js.lookup name (Js.set other data params) = Js.lookup name params.
Proof.
  intros Ne. induction params as [| [k v] params IH]; cbn [Js.set Js.lookup].
  - rewrite String.eqb_sym in Ne. now rewrite Ne.
  - destruct (String.eqb other k) eqn:E; cbn [Js.lookup].
    + apply String.eqb_eq in E. subst k.
      rewrite String.eqb_sym in Ne. rewrite Ne.
      now apply remove_key_lookup; rewrite String.eqb_sym.
    + now rewrite IH.
Qed.

(** The serialized text is never empty, so the frame route never leaves
    the parameter out. *)
Lemma serializeJson_truthy (x : Json) : Js.truthy (serializeJson x) = true.
Proof.
  unfold serializeJson.
  destruct (stringify_first x EmptyString) as [c [r [E _]]].
  rewrite append_empty_r in E. rewrite E, uri_encode_cons.
  destruct (unreserved c); reflexivity.
Qed.

Lemma deserialize_serialize (x : Json) :
  deserializeJson (serializeJson x) = Some x.
Proof.
  unfold deserializeJson, serializeJson.
  now rewrite uri_decode_encode, parse_stringify.
Qed.

End JsonFacts.

(** C5. A JSON-shaped context serialized with [serializeJson] is
    deserialized by [deserializeJson] to the context it was; the same
    holds after the serialized text has been put in a query parameter
    with [URLSearchParams], alone or before another parameter, written to
    a query string and read back from it; and the serialized text is
    URL-safe. *)
Theorem context_round_trips (x : JsonCodec.Json) (name : string)
  (params : Js.URLSearchParams) :
  JsonCodec.deserializeJson (JsonCodec.serializeJson x) = Some x /\
  JsonCodec.received name
    (Js.toString (Js.set name (JsonCodec.serializeJson x) params)) = Some x /\
  (forall other data : string,
     String.eqb other name = false ->
     JsonCodec.received name
       (Js.toString
          (Js.set other data
             (Js.set name (JsonCodec.serializeJson x) params))) = Some x) /\
  JsonCodec.url_safe (JsonCodec.serializeJson x) = true.
Proof.
  split; [apply JsonFacts.deserialize_serialize |].
  split; [| split].
  - unfold JsonCodec.received.
    rewrite parse_toString, JsonFacts.lookup_set.
    apply JsonFacts.deserialize_serialize.
  - intros other data Ne. unfold JsonCodec.received.
    rewrite parse_toString, JsonFacts.lookup_set_other by exact Ne.
    rewrite JsonFacts.lookup_set. apply JsonFacts.deserialize_serialize.
  - apply JsonFacts.encodeURIComponent_url_safe.
Qed.

(* ===================================================================== *)
(** ** The theorems at concrete requests *)
(* ===================================================================== *)

Module Runs.

#[local] Existing Instance Demo.types.
#[local] Existing Instance Demo.runtime.
#[local] Existing Instance Demo.helpers.
#[local] Existing Instance Demo.codec.

(** A GET of [/app] whose derived context lives at [/start] is redirected
    there, and the handler is not called. *)
Lemma frame_route_redirects_run :
  outcome (run Demo.context_elsewhere (framePage 0 Demo.get_app_again) Demo.app) =
    Returned (Redirect "http://localhost/start?previousContext=abc") /\
  handlerCalls (log (run Demo.context_elsewhere (framePage 0 Demo.get_app_again) Demo.app)) = [].
Proof.
  destruct (frame_route_redirects Demo.context_elsewhere Demo.app 0 Demo.get_app_again
              Demo.derived_elsewhere ("http://localhost/start", 0))
    as [N [_ [_ [_ [O _]]]]].
  - cbn. left. reflexivity.
  - cbn. discriminate.
  - split; [exact (O eq_refl eq_refl eq_refl) | exact N].
Defined.

(** The demo handler returns no aspect ratio: the page says 1.91:1. *)
Lemma frame_route_aspect_ratio_run :
  exists document,
    outcome (run Demo.everything_fine (framePage 0 Demo.get_app) Demo.app) =
      Returned (Html document) /\
    meta_content "fc:frame:image:aspect_ratio" (head_of document) =
      Some "1.91:1".
Proof.
  destruct (frame_route_aspect_ratio Demo.everything_fine Demo.app 0 Demo.get_app Demo.the_call)
    as [document [O [M _]]].
  - cbn. left. reflexivity.
  - exists document. split; [exact O | exact M].
Defined.

(** The post URL of the demo page carries the serialized previous
    context. *)
Lemma frame_route_carries_previous_context_run :
  exists document,
    outcome (run Demo.everything_fine (framePage 0 Demo.get_app) Demo.app) =
      Returned (Html document) /\
    meta_content "fc:frame:post_url" (head_of document) =
      Some "http://localhost/app?previousContext=prev%3Ahttp%3A%2F%2Flocalhost%2Fapp".
Proof.
  destruct (frame_route_carries_previous_context Demo.everything_fine Demo.app 0
              Demo.get_app Demo.the_call)
    as [document [O [_ [M _]]]].
  - cbn. left. reflexivity.
  - exists document. split; [exact O | exact (M eq_refl)].
Defined.

(** Two buttons returned, two Demo.button tags between the post URL and the
    context tag, in the order returned. *)
Lemma frame_route_intent_tags_run :
  exists document imageUrl ratio postUrl,
    outcome (run Demo.everything_fine
               (framePage (H := with_positional_intents Demo.button_tags)
                  0 Demo.get_app) Demo.app) =
      Returned (Html document) /\
    head_of document =
      List.app
        [ meta "fc:frame" "vNext";
          meta "fc:frame:image" imageUrl;
          meta "fc:frame:image:aspect_ratio" ratio;
          meta "og:image" imageUrl;
          meta "fc:frame:post_url" postUrl ]
        (List.app [ Demo.button "Yes"; Demo.button "No" ]
           [ meta "farc:context" "ctx:http://localhost/app" ]).
Proof.
  destruct (frame_route_intent_tags Demo.button_tags Demo.everything_fine
              Demo.app 0 Demo.get_app Demo.the_call)
    as [document [i [r [p [O [Hd _]]]]]].
  - cbn. left. reflexivity.
  - exists document, i, r, p. split; [exact O | exact Hd].
Defined.

(** A callback that answers 500: one fetch of the page follows, and the
    preview shows the status text. *)
Lemma dev_post_falls_back_once_run :
  exists fallback,
    [ Demo.the_fallback ] =
    [ {| fetch_input := Some "http://localhost/app"; fetch_init := None;
         fetch_response := fallback |} ] /\
    outcome (run Demo.callback_fails (devPost Demo.click) Demo.app) =
      Returned (Html (Comp (Preview
        {| preview_baseUrl := "http://localhost/app";
           preview_error := Some "Internal Server Error";
           preview_frame := body fallback;
           preview_routes := ["/app"; "/app/image"; "/app/dev"; "/app/dev"; "/app/dev"];
           preview_state := body fallback |}))).
Proof.
  destruct (dev_post_falls_back_once Demo.callback_fails Demo.app Demo.click
              Demo.the_post [Demo.the_fallback])
    as [_ [_ [Fallback _]]].
  - reflexivity.
  - apply Fallback. cbn. discriminate.
Defined.

(** Nor is anything sent, or any key generated, for a POST whose body is
    not form data. *)
Example no_key_without_form :
  let r := run Demo.everything_fine (devPost Demo.post_without_form) Demo.app in
  log r = [] /\ outcome r = Thrown (Raised Demo.not_a_form).
Proof. split; reflexivity. Qed.

(** A form without [postUrl]: the action is signed, and nothing is
    sent. *)
Example no_post_without_postUrl :
  let r := run Demo.everything_fine (devPost Demo.click_nowhere) Demo.app in
  length (signCalls (log r)) = 1 /\ fetches (log r) = [] /\
  outcome r = Thrown TypeError.
Proof. repeat split. Qed.

End Runs.

(* ===================================================================== *)
(** ** More about the class: the constructor and serving *)
(* ===================================================================== *)

Section Constructor.
Context {T : Types} {R : Runtime} {H : Helpers} {C : Codec}.

(** X1. The constructor keeps the [initialState] it is given only when the
    value is truthy; a falsy one is dropped and [#initialState] stays
    undefined. A non-empty [basePath] becomes the base path of the router,
    an empty one is ignored; the router starts with no routes. *)
Theorem constructor_keeps_truthy_state (w : World)
  (p : FarcConstructorParameters) :
  let r := run w (constructor p) blank in
  outcome r = Returned tt /\
  initialState (final r) = kept_state p /\
  (forall s, param_initialState p = Some s -> state_truthy s = false ->
     initialState (final r) = None) /\
  hono_basePath (hono (final r)) = kept_basePath p /\
  hono_options (hono (final r)) = param_honoOptions p /\
  hono_routes (hono (final r)) = [].
Proof.
  cbv zeta. unfold run, constructor, kept_state, kept_basePath.
  destruct p as [basePath options state]. cbn [param_basePath param_honoOptions
    param_initialState].
  destruct basePath as [b |]; [destruct (Js.truthy b) |];
    (destruct state as [s |]; [destruct (state_truthy s) eqn:Ts |]);
    cbn; repeat split; try reflexivity;
    intros s' E F; try discriminate E; injection E as <-; congruence.
Qed.

End Constructor.

Section ServingFacts.
Context {T : Types} {R : Runtime} {H : Helpers} {C : Codec}.

Lemma filter_from_find {A : Type} (f : A -> bool) (l : list A) (x : A) :
  find f l = Some x -> exists rest, filter f l = x :: rest.
Proof.
  induction l as [| y l IH]; cbn; [discriminate |].
  destruct (f y).
  - intros [= ->]. now eexists.
  - exact IH.
Qed.

Lemma filter_none_from_find {A : Type} (f : A -> bool) (l : list A) :
  find f l = None -> filter f l = [].
Proof.
  induction l as [| y l IH]; cbn; [reflexivity |].
  destruct (f y); [discriminate | exact IH].
Qed.

Lemma runHandler_alone (h : RouteHandler) (c : Context)
  (next next' : Context -> Prog Response) :
  answers_alone h = true -> runHandler h c next = runHandler h c next'.
Proof. destruct h; cbn; intros E; try reflexivity; discriminate E. Qed.

(** A request is answered by the handlers of the routes that serve its
    path and the method it is dispatched under, run on the request as it
    came; for a HEAD request the response loses its body. *)
Lemma Farc_fetch_dispatches (w : World) (self : Farc) (req : HonoRequest) :
  answered_from req
    (run_from w (dispatch (hono self) req (dispatched (req_method req)))
       self [entry ThisHono (hono self)])
    (run w (Farc_fetch req) self).
Proof.
  unfold answered_from, finished, run, Farc_fetch, dispatched.
  cbn [bind trigger run_from perform app].
  destruct (req_method req); try (repeat split; intros r ->; reflexivity).
  rewrite run_from_bind.
  destruct (outcome (run_from w _ self _)) eqn:O; cbn [final log outcome];
    repeat split; intros r E; now inversion E.
Qed.

(** X2. Routes answer in registration order. Among routes whose paths
    are matched as they are written, when the first registered route that
    serves a request is a frame page, an image route or a preview
    handler, the request is answered from the run of that handler alone,
    on a context with the default renderer; routes registered later for
    the same method and path are not run. A request no route serves is
    answered with Not Found and nothing else happens. A HEAD request is
    served by the routes that serve a GET of its path, and answered with
    their response without its body. *)
Theorem first_serving_route_answers (w : World) (self : Farc)
  (req : HonoRequest) :
  let served :=
    find (serves (dispatched (req_method req)) (URL_pathname (req_url req)))
         (hono_routes (hono self)) in
  let r := run w (Farc_fetch req) self in
  let read := [entry ThisHono (hono self)] in
  literal_routes (hono self) = true ->
  (forall route,
     served = Some route ->
     answers_alone (route_handler route) = true ->
     answered_from req
       (run_from w
          (runHandler (route_handler route) (fresh req)
             (fun _ => Ret NotFound)) self read) r) /\
  (served = None ->
   final r = self /\ log r = read /\
   outcome r = Returned (finished req NotFound)).
Proof.
  cbv zeta. intros _.
  pose proof (Farc_fetch_dispatches w self req) as D. unfold dispatch in D.
  split.
  - intros route F Alone. destruct (filter_from_find _ _ _ F) as [rest E].
    rewrite E in D. cbn [map compose] in D.
    now rewrite (runHandler_alone _ _ (compose (map route_handler rest))
                   (fun _ => Ret NotFound) Alone) in D.
  - intros F. rewrite (filter_none_from_find _ _ F) in D.
    destruct D as [Fi [L O]].
    split; [exact Fi |]. split; [exact L |]. exact (O NotFound eq_refl).
Qed.

(** The run of the preview GET handler, written out. *)
Lemma devGet_unfolded (w : World) (self : Farc) (c : Context)
  (l : list Entry) :
  let baseUrl := Js.replace "/dev" "" (req_url (c_req c)) in
  let page := Fetch (Some baseUrl) None in
  let response := w l page in
  run_from w (devGet c) self l =
    {| final := self;
       log := List.app (List.app l [entry page response])
                [entry ThisHono (hono self)];
       outcome :=
         Returned (render c (Comp (Dev
           {| dev_baseUrl := baseUrl;
              dev_frame := htmlToFrame (body response);
              dev_routes := getRoutes baseUrl (inspectRoutes (hono self));
              dev_state := htmlToState (body response) |}))) |}.
Proof. reflexivity. Qed.

(** X3. The preview GET handler, whatever happened before it in the
    request, fetches the page URL (the request URL with its first ['/dev']
    removed) exactly once, with no options, then reads the router, and
    renders [Dev] with the frame and the state read from the body of the
    response and the routes of this instance. It does not look at the
    status of the response: an error page is read like any other. *)
Theorem dev_get_fetches_the_page_once (w : World) (self : Farc) (c : Context)
  (before : list Entry) :
  let r := run_from w (devGet c) self before in
  let baseUrl := Js.replace "/dev" "" (req_url (c_req c)) in
  exists response,
    log r =
      List.app before
        [ entry (Fetch (Some baseUrl) None) response;
          entry ThisHono (hono self) ] /\
    outcome r =
      Returned (render c (Comp (Dev
        {| dev_baseUrl := baseUrl;
           dev_frame := htmlToFrame (body response);
           dev_routes := getRoutes baseUrl (inspectRoutes (hono self));
           dev_state := htmlToState (body response) |}))) /\
    final r = self.
Proof.
  cbv zeta. rewrite devGet_unfolded. cbv zeta.
  eexists. cbn [log outcome final]. rewrite <- app_assoc. repeat split.
Qed.

(** The routes of a router after [frame], starting from no routes. *)
Lemma frame_routes_from_none (w : World) (start : Farc) (path : string)
  (handler : Handler) :
  hono_routes (hono start) = [] ->
  let at_ := mergePath (hono_basePath (hono start)) in
  let p := parsePath path in
  hono_routes (hono (final (run w (frame path handler) start))) =
    [ {| route_method := ALL; route_path := at_ p;
         route_handler := FramePage handler |};
      {| route_method := Only GET; route_path := at_ (p ++ "/image");
         route_handler := OgImage handler |};
      {| route_method := ALL; route_path := at_ (p ++ "/dev");
         route_handler := DevRenderer |};
      {| route_method := Only GET; route_path := at_ (p ++ "/dev");
         route_handler := DevGet |};
      {| route_method := Only POST; route_path := at_ (p ++ "/dev");
         route_handler := DevPost |} ].
Proof.
  intros Empty. cbv zeta. unfold run, frame. cbn. rewrite Empty. reflexivity.
Qed.

(** X4. After [frame(path, handler)] on a router with no routes, with
    paths that are matched as they are written, a request at the preview
    path ([path + '/dev'] under the base path) first goes through the
    layout middleware; a GET is then answered from the run of the preview
    GET handler and a POST from the run of the preview POST handler, both
    rendering inside the layout; a HEAD is answered as a GET, without the
    body; any other method finds no handler behind the middleware and is
    answered with Not Found. *)
Theorem preview_path_is_served_for_get_and_post (w0 w : World) (start : Farc)
  (path : string) (handler : Handler) (req : HonoRequest) :
  let self := final (run w0 (frame path handler) start) in
  let at_ := mergePath (hono_basePath (hono start)) in
  let p := parsePath path in
  let r := run w (Farc_fetch req) self in
  let read := [entry ThisHono (hono self)] in
  hono_routes (hono start) = [] ->
  literal_routes (hono self) = true ->
  URL_pathname (req_url req) = at_ (p ++ "/dev") ->
  at_ p <> at_ (p ++ "/dev") ->
  at_ (p ++ "/image") <> at_ (p ++ "/dev") ->
  match req_method req with
  | GET | HEAD =>
      answered_from req (run_from w (devGet (laid_out req)) self read) r
  | POST =>
      answered_from req (run_from w (devPost (laid_out req)) self read) r
  | _ =>
      final r = self /\ log r = read /\ outcome r = Returned NotFound
  end.
Proof.
  cbv zeta. intros Empty _ Path Page Image.
  pose proof (frame_routes_from_none w0 start path handler Empty) as Routes.
  cbv zeta in Routes.
  remember (final (run w0 (frame path handler) start)) as self eqn:Self.
  pose proof (Farc_fetch_dispatches w self req) as D. unfold dispatch in D.
  rewrite Routes, Path in D.
  apply String.eqb_neq in Page, Image.
  rewrite String.eqb_sym in Page. rewrite String.eqb_sym in Image.
  cbn [filter] in D. unfold serves in D.
  cbn [route_method route_path method_matches] in D.
  rewrite Page, Image, String.eqb_refl, !andb_false_r, !andb_true_r in D.
  destruct (req_method req) eqn:M; try exact D.
  all: destruct D as [Fi [L O]]; split; [exact Fi |]; split; [exact L |];
    pose proof (O NotFound eq_refl) as N; unfold finished in N;
    rewrite M in N; exact N.
Qed.

End ServingFacts.

(* ===================================================================== *)
(** ** More about the frame route and the image route *)
(* ===================================================================== *)

Section MoreFrameRoute.
Context {T : Types} {R : Runtime} {H : Helpers} {C : Codec}.

(** X5. When the URL of the derived context is the parsed path of the
    request URL, the frame route calls the handler exactly once, with the
    derived context and the previous context it gave [getFrameContext],
    and answers with the rendered frame document of that context and of
    what the handler returned. *)
Theorem frame_route_calls_handler_once (w : World) (self : Farc)
  (handler : Handler) (c : Context) (parameters : GetFrameContextParameters)
  (context : FrameContext) :
  let r := run w (framePage handler c) self in
  let baseUrl :=
    URL_origin (req_url (c_req c)) ++ URL_pathname (req_url (c_req c)) in
  In (parameters, context) (derivations (log r)) ->
  ctx_url context = parsePath (req_url (c_req c)) ->
  exists result,
    handlerCalls (log r) =
      [ {| call_handler := handler;
           call_context := context;
           call_previousContext := gfc_previousContext parameters;
           call_result := result |} ] /\
    derivations (log r) = [(parameters, context)] /\
    outcome r =
      Returned (render c
        (frameDocument (req_query (c_req c)) baseUrl context result)).
Proof.
  cbv zeta. intros D E.
  destruct (framePage_cases w self handler c)
    as [[e [_ [L _]]] | [previous [rc [ctx [_ Cases]]]]];
    [rewrite L in D; contradiction |].
  cbv zeta in Cases.
  destruct Cases as [[Ne [L O]] | [Eq [result [L O]]]].
  - rewrite L in D. cbn in D. destruct D as [D | []].
    injection D as _ D. subst ctx. contradiction.
  - rewrite L in D |- *. cbn in D. destruct D as [D | []].
    injection D as <- <-. exists result. cbn. repeat split. exact O.
Qed.

(** X6. The state given to the constructor reaches every request: in the
    frame route and in the image route of an instance made by the
    constructor and [frame], [getFrameContext] is called once (unless the
    decoding threw) with the initial state the constructor kept
    (undefined for a falsy one), with the request itself, with the decoded
    previous context, and with the context of the request: the one
    [requestToContext] answered for this request at the start of the
    frame route, the deserialized [context] query parameter in the image
    route. *)
Theorem initial_state_reaches_getFrameContext (w0 w : World)
  (p : FarcConstructorParameters) (path : string) (handler : Handler)
  (c : Context) :
  let self := constructed w0 p path handler in
  let query := req_query (c_req c) in
  (forall previous,
     decodePrevious query = Normal previous ->
     exists requestContext context,
       nth_error (log (run w (framePage handler c) self)) 0 =
         Some (entry (RequestToContext (c_req c)) requestContext) /\
       derivations (log (run w (framePage handler c) self)) =
         [ ({| gfc_context := requestContext;
               gfc_initialState := kept_state p;
               gfc_previousContext := previous;
               gfc_request := c_req c |}, context) ]) /\
  (forall previous queryContext,
     decodePrevious query = Normal previous ->
     deserializeJson TContext (Js.lookup "context" query) = Normal queryContext ->
     exists context,
       derivations (log (run w (ogImage handler c) self)) =
         [ ({| gfc_context := queryContext;
               gfc_initialState := kept_state p;
               gfc_previousContext := previous;
               gfc_request := c_req c |}, context) ]).
Proof.
  cbv zeta.
  assert (S : initialState (constructed w0 p path handler) = kept_state p).
  { unfold constructed, kept_state, run, constructor, frame.
    destruct p as [basePath options state].
    cbn [param_basePath param_honoOptions param_initialState].
    destruct basePath as [b |]; [destruct (Js.truthy b) |];
      (destruct state as [s |]; [destruct (state_truthy s) |]);
      reflexivity. }
  split.
  - intros previous D. rewrite framePage_unfolded. cbv zeta. rewrite D, S.
    do 2 eexists.
    match goal with
    | |- context [String.eqb ?a ?b] => destruct (String.eqb a b)
    end; split; reflexivity.
  - intros previous queryContext D Q. rewrite ogImage_unfolded. cbv zeta.
    rewrite D, Q, S. eexists. reflexivity.
Qed.

(** X7. When neither decoding throws, the image route calls the handler
    exactly once, with the context [getFrameContext] answered, and answers
    with the [image] the handler returned. Unlike the frame route it does
    not compare the URL of the context with the request: it never
    redirects. *)
Theorem image_route_renders_the_handler_image (w : World) (self : Farc)
  (handler : Handler) (c : Context)
  (previous : option PreviousFrameContext) (queryContext : FrameContext) :
  let r := run w (ogImage handler c) self in
  let query := req_query (c_req c) in
  decodePrevious query = Normal previous ->
  deserializeJson TContext (Js.lookup "context" query) = Normal queryContext ->
  exists context result,
    derivations (log r) =
      [ ({| gfc_context := queryContext;
            gfc_initialState := initialState self;
            gfc_previousContext := previous;
            gfc_request := c_req c |}, context) ] /\
    handlerCalls (log r) =
      [ {| call_handler := handler;
           call_context := context;
           call_previousContext := previous;
           call_result := result |} ] /\
    outcome r = Returned (ImageResponse (image result)) /\
    final r = self.
Proof.
  cbv zeta. intros D Q. rewrite ogImage_unfolded. cbv zeta. rewrite D, Q.
  do 2 eexists. repeat split.
Qed.

(** X8. The image URL the frame route writes brings the image route what
    the frame route had: the [fc:frame:image] and [og:image] tags hold
    the same URL, the parsed path of the context URL followed by
    ['/image?'] and a query string; read back, that query string has the
    serialized current context as [context] (when it is not empty), and
    its [previousContext] decodes as the one of the request being
    answered does. *)
Theorem image_url_carries_the_request (w : World) (self : Farc)
  (handler : Handler) (c : Context) (call : HandlerCall) :
  let r := run w (framePage handler c) self in
  In call (handlerCalls (log r)) ->
  let serialized := serializeJson TContext (call_context call) in
  let search := imageSearch (req_query (c_req c)) serialized in
  let url :=
    parsePath (ctx_url (call_context call)) ++ "/image?" ++ Js.toString search in
  let received := Query.read_query (Js.toString search) in
  exists document,
    outcome r = Returned (render c document) /\
    meta_content "fc:frame:image" (head_of document) = Some url /\
    meta_content "og:image" (head_of document) = Some url /\
    decodePrevious received = decodePrevious (req_query (c_req c)) /\
    Js.lookup "context" received =
      (if Js.truthy serialized then Some serialized else None).
Proof.
  cbv zeta. intros In_call.
  rewrite framePage_unfolded in In_call |- *. cbv zeta in In_call |- *.
  destruct (decodePrevious (req_query (c_req c))) as [previous | e] eqn:D;
    [| contradiction].
  match goal with
  | |- context [String.eqb ?a ?b] => destruct (String.eqb a b) eqn:E
  end; cbn [log outcome final] in In_call |- *;
    [| cbn in In_call; contradiction].
  cbn in In_call. destruct In_call as [<- | []].
  cbn [call_result call_context].
  eexists. split; [reflexivity |].
  split; [reflexivity |]. split; [reflexivity |].
  rewrite parse_toString. rewrite <- D. clear.
  unfold imageSearch, decodePrevious.
  destruct (Js.lookup "previousContext" (req_query (c_req c))) as [q |];
    [destruct (Js.truthy q) eqn:Q |];
    destruct (Js.truthy (serializeJson TContext _)); cbn; rewrite ?Q;
    split; reflexivity.
Qed.

(** X9. The page the frame route renders ends its head with its own
    inputs: after everything else comes the [farc:context] tag with the
    serialized current context, followed by a [farc:prev_context] tag with
    the incoming [previousContext] query value exactly when the request
    had a non-empty one. *)
Theorem frame_page_echoes_its_contexts (w : World) (self : Farc)
  (handler : Handler) (c : Context) (call : HandlerCall) :
  let r := run w (framePage handler c) self in
  In call (handlerCalls (log r)) ->
  exists document front,
    outcome r = Returned (render c document) /\
    head_of document =
      List.app front
        (meta "farc:context" (serializeJson TContext (call_context call))
         :: match Js.lookup "previousContext" (req_query (c_req c)) with
            | Some q =>
                if Js.truthy q then [meta "farc:prev_context" q] else []
            | None => []
            end) /\
    5 <= length front.
Proof.
  cbv zeta. intros In_call.
  rewrite framePage_unfolded in In_call |- *. cbv zeta in In_call |- *.
  destruct (decodePrevious (req_query (c_req c))) as [previous | e] eqn:D;
    [| contradiction].
  match goal with
  | |- context [String.eqb ?a ?b] => destruct (String.eqb a b) eqn:E
  end; cbn [log outcome final] in In_call |- *;
    [| cbn in In_call; contradiction].
  cbn in In_call. destruct In_call as [<- | []].
  cbn [call_result call_context].
  eexists. eexists. split; [reflexivity |].
  unfold frameDocument, frameHead. cbn [head_of].
  split.
  - rewrite app_assoc. reflexivity.
  - rewrite length_app. cbn. lia.
Qed.

(** X10. Each route keeps to its side: the frame route and the image route
    never fetch anything and never ask for a key or a signature; the
    preview handlers never call the user's handler or [getFrameContext]
    themselves (they reach the frame over HTTP only), and the preview GET
    handler asks for no key and no signature. *)
Theorem routes_keep_to_their_side (w : World) (self : Farc)
  (handler : Handler) (c : Context) :
  let page := log (run w (framePage handler c) self) in
  let picture := log (run w (ogImage handler c) self) in
  let preview := log (run w (devGet c) self) in
  let click := log (run w (devPost c) self) in
  (fetches page = [] /\ keysGenerated page = [] /\ signCalls page = []) /\
  (fetches picture = [] /\ keysGenerated picture = [] /\ signCalls picture = []) /\
  (handlerCalls preview = [] /\ derivations preview = [] /\
   keysGenerated preview = [] /\ signCalls preview = []) /\
  (handlerCalls click = [] /\ derivations click = []).
Proof.
  cbv zeta. repeat apply conj.
  1-3: rewrite framePage_unfolded; cbv zeta;
       destruct (decodePrevious _); [| reflexivity];
       match goal with
       | |- context [String.eqb ?a ?b] => destruct (String.eqb a b)
       end; reflexivity.
  1-3: rewrite ogImage_unfolded; cbv zeta;
       destruct (decodePrevious _); [| reflexivity];
       destruct (deserializeJson TContext _); reflexivity.
  1-4: reflexivity.
  1-2: rewrite devPost_unfolded; cbv zeta;
       destruct (req_formData (c_req c)); [| reflexivity];
       destruct (w _ (MakeFrameAction _ _ _)); [| reflexivity];
       destruct (Js.lookup "postUrl" _); [| reflexivity];
       destruct (status _ =? 200)%Z; reflexivity.
Qed.

End MoreFrameRoute.

(* ===================================================================== *)
(** ** More about the developer preview *)
(* ===================================================================== *)

Section BaseUrl.

Lemma prefix_empty (s : string) : String.prefix EmptyString s = true.
Proof. destruct s; reflexivity. Qed.

(** Where ['/dev'] does not start inside [u], it does not start inside
    [u] followed by ['/dev'] either: no end of [u] and start of ['/dev']
    spell ['/dev']. *)
Lemma no_early_dev (c : ascii) (u rest : string) :
  String.prefix "/dev" (String c u) = false ->
  String.prefix "/dev" (String c (u ++ "/dev" ++ rest)) = false.
Proof.
  cbn [String.prefix append].
  destruct (ascii_dec "/" c); [| reflexivity].
  destruct u as [| a u]; cbn [String.prefix append]; [reflexivity |].
  destruct (ascii_dec "d" a); [| reflexivity].
  destruct u as [| b u]; cbn [String.prefix append]; [reflexivity |].
  destruct (ascii_dec "e" b); [| reflexivity].
  destruct u as [| d u]; cbn [String.prefix append]; [reflexivity |].
  destruct (ascii_dec "v" d); [| reflexivity].
  now rewrite !prefix_empty.
Qed.

Lemma replace_cons (pat rep : string) (c : ascii) (r : string) :
  Js.replace pat rep (String c r) =
  if String.prefix pat (String c r)
  then rep ++ Js.drop (String.length pat) (String c r)
  else String c (Js.replace pat rep r).
Proof. reflexivity. Qed.

Lemma replace_dev_suffix (u rest : string) :
  Text.occurs "/dev" u = false ->
  Js.replace "/dev" "" (u ++ "/dev" ++ rest) = u ++ rest.
Proof.
  induction u as [| c u IH]; intros O.
  - cbn [append Js.replace String.prefix].
    repeat (destruct (ascii_dec _ _) as [_ | N]; [| now contradiction N]).
    rewrite prefix_empty. reflexivity.
  - cbn [Text.occurs] in O. apply orb_false_iff in O as [P O].
    change (String c u ++ "/dev" ++ rest)
      with (String c (u ++ "/dev" ++ rest)).
    rewrite replace_cons, (no_early_dev c u rest P), (IH O). reflexivity.
Qed.

End BaseUrl.

Section MoreDev.
Context {T : Types} {R : Runtime} {H : Helpers} {C : Codec}.

(** X11. For a request URL that is a page URL with ['/dev'] put in (the
    part before it holding no ['/dev'] of its own), the preview handlers
    work on the page URL: the GET handler fetches it, and the POST handler,
    whatever the form holds, gives it to [FrameActionBody.create] as the
    URL of the frame action it has signed, and sends it as
    [untrustedData.url]; whatever follows ['/dev'] in the request URL, a
    query string for one, is kept. *)
Theorem preview_works_on_the_page_url (w : World) (self : Farc) (c : Context)
  (u rest : string) (formData : list (string * string)) (message : Message) :
  req_url (c_req c) = u ++ "/dev" ++ rest ->
  Text.occurs "/dev" u = false ->
  (exists response,
     fetches (log (run w (devGet c) self)) =
       [ {| fetch_input := Some (u ++ rest); fetch_init := None;
            fetch_response := response |} ]) /\
  devFrameActionBody c formData =
    FrameActionBody_create (devFrameActionBase c formData) /\
  fab_url (devFrameActionBase c formData) = Js.Buffer_from (u ++ rest) /\
  ud_url (untrustedData (devFramePost c formData message)) = u ++ rest.
Proof.
  intros Url O.
  pose proof (replace_dev_suffix u rest O) as B. rewrite <- Url in B.
  repeat split.
  - unfold run. rewrite devGet_unfolded. cbv zeta. rewrite B.
    eexists. reflexivity.
  - unfold devFrameActionBase. cbn [fab_url]. now rewrite B.
  - unfold devFramePost. cbn [untrustedData ud_url]. exact B.
Qed.

End MoreDev.

(* ===================================================================== *)
(** ** The further theorems at concrete requests *)
(* ===================================================================== *)

Module MoreRuns.

#[local] Existing Instance Demo.types.
#[local] Existing Instance Demo.runtime.
#[local] Existing Instance Demo.helpers.
#[local] Existing Instance Demo.codec.

(** With two frames at [/app], a GET of [/app] calls the handler of the
    first one only; a HEAD of [/app/image] is answered by the image route
    of the first one, without the body. *)
Lemma first_serving_route_answers_run :
  map call_handler
    (handlerCalls
       (log (run Demo.everything_fine
               (Farc_fetch (MoreDemo.get "http://localhost/app" []))
               MoreDemo.twice))) = [1] /\
  outcome (run Demo.everything_fine (Farc_fetch MoreDemo.head_image)
             MoreDemo.twice) =
    Returned (WithoutBody (ImageResponse (Text "image"))).
Proof.
  split.
  - destruct (first_serving_route_answers Demo.everything_fine MoreDemo.twice
                (MoreDemo.get "http://localhost/app" [])) as [Served _].
    + reflexivity.
    + destruct (Served MoreDemo.first_route eq_refl eq_refl) as [_ [Log _]].
      rewrite Log. reflexivity.
  - destruct (first_serving_route_answers Demo.everything_fine MoreDemo.twice
                MoreDemo.head_image) as [Served _].
    + reflexivity.
    + destruct (Served MoreDemo.image_route eq_refl eq_refl) as [_ [_ Out]].
      exact (Out (ImageResponse (Text "image")) eq_refl).
Defined.

(** At the preview of [/app]: a GET and a POST are answered inside the
    layout, a HEAD as the GET without its body, a PUT with Not Found. *)
Lemma preview_path_is_served_for_get_and_post_run :
  outcome (run Demo.everything_fine (Farc_fetch MoreDemo.get_preview)
             MoreDemo.once) =
    Returned (Html (devLayout MoreDemo.get_preview
                      (Comp (Dev MoreDemo.dev_page)))) /\
  outcome (run Demo.everything_fine (Farc_fetch MoreDemo.post_preview)
             MoreDemo.once) =
    Returned (Html (devLayout MoreDemo.post_preview
                      (Comp (Preview MoreDemo.preview_page)))) /\
  outcome (run Demo.everything_fine (Farc_fetch MoreDemo.head_preview)
             MoreDemo.once) =
    Returned (WithoutBody
      (Html (devLayout MoreDemo.head_preview (Comp (Dev MoreDemo.dev_page))))) /\
  outcome (run Demo.everything_fine (Farc_fetch MoreDemo.put_preview)
             MoreDemo.once) = Returned NotFound.
Proof.
  assert (Empty : hono_routes (hono (T := Demo.types) blank) = [])
    by reflexivity.
  assert (Literal : literal_routes (hono MoreDemo.once) = true)
    by reflexivity.
  assert (Page : "/app" <> "/app/dev") by discriminate.
  assert (Image : "/app/image" <> "/app/dev") by discriminate.
  split; [| split; [| split]].
  - destruct (preview_path_is_served_for_get_and_post Demo.everything_fine
                Demo.everything_fine blank "/app" 0 MoreDemo.get_preview
                Empty Literal eq_refl Page Image) as [_ [_ Out]].
    exact (Out _ eq_refl).
  - destruct (preview_path_is_served_for_get_and_post Demo.everything_fine
                Demo.everything_fine blank "/app" 0 MoreDemo.post_preview
                Empty Literal eq_refl Page Image) as [_ [_ Out]].
    exact (Out _ eq_refl).
  - destruct (preview_path_is_served_for_get_and_post Demo.everything_fine
                Demo.everything_fine blank "/app" 0 MoreDemo.head_preview
                Empty Literal eq_refl Page Image) as [_ [_ Out]].
    exact (Out _ eq_refl).
  - destruct (preview_path_is_served_for_get_and_post Demo.everything_fine
                Demo.everything_fine blank "/app" 0 MoreDemo.put_preview
                Empty Literal eq_refl Page Image) as [_ [_ Out]].
    exact Out.
Defined.

Lemma frame_route_calls_handler_once_run :
  exists result,
    handlerCalls
      (log (run Demo.everything_fine (framePage 0 Demo.get_app) Demo.app)) =
    [ {| call_handler := 0; call_context := MoreDemo.page_context;
         call_previousContext := None; call_result := result |} ].
Proof.
  destruct (frame_route_calls_handler_once Demo.everything_fine Demo.app 0
              Demo.get_app MoreDemo.derived MoreDemo.page_context)
    as [result [Calls _]].
  - cbn. left. reflexivity.
  - reflexivity.
  - exists result. exact Calls.
Defined.

Lemma image_route_renders_the_handler_image_run :
  exists context result,
    handlerCalls
      (log (run Demo.everything_fine (ogImage 0 MoreDemo.image_request)
              Demo.app)) =
      [ {| call_handler := 0; call_context := context;
           call_previousContext := None; call_result := result |} ] /\
    outcome (run Demo.everything_fine (ogImage 0 MoreDemo.image_request)
               Demo.app) = Returned (ImageResponse (image result)).
Proof.
  destruct (image_route_renders_the_handler_image Demo.everything_fine
              Demo.app 0 MoreDemo.image_request None MoreDemo.image_context)
    as [context [result [_ [Calls [Out _]]]]].
  - reflexivity.
  - reflexivity.
  - exists context, result. split; [exact Calls | exact Out].
Defined.

Lemma image_url_carries_the_request_run :
  exists document,
    outcome (run Demo.everything_fine (framePage 0 Demo.get_app_again)
               Demo.app) = Returned (Html document) /\
    meta_content "fc:frame:image" (head_of document) =
      Some "http://localhost/app/image?previousContext=abc&context=ctx%3Ahttp%3A%2F%2Flocalhost%2Fapp".
Proof.
  destruct (image_url_carries_the_request Demo.everything_fine Demo.app 0
              Demo.get_app_again MoreDemo.call_again)
    as [document [Out [Image _]]].
  - cbn. left. reflexivity.
  - exists document. split; [exact Out | exact Image].
Defined.

Lemma frame_page_echoes_its_contexts_run :
  exists document front,
    outcome (run Demo.everything_fine (framePage 0 Demo.get_app_again)
               Demo.app) = Returned (Html document) /\
    head_of document =
      List.app front
        [ meta "farc:context" "ctx:http://localhost/app";
          meta "farc:prev_context" "abc" ].
Proof.
  destruct (frame_page_echoes_its_contexts Demo.everything_fine Demo.app 0
              Demo.get_app_again MoreDemo.call_again)
    as [document [front [Out [Head _]]]].
  - cbn. left. reflexivity.
  - exists document, front. split; [exact Out | exact Head].
Defined.

Lemma preview_works_on_the_page_url_run :
  fab_url (devFrameActionBase Demo.click []) =
    Js.Buffer_from "http://localhost/app" /\
  ud_url (untrustedData (devFramePost Demo.click [] MoreDemo.a_message)) =
    "http://localhost/app".
Proof.
  destruct (preview_works_on_the_page_url Demo.everything_fine Demo.app
              Demo.click "http://localhost/app" "" [] MoreDemo.a_message)
    as [_ [_ [Body Sent]]].
  - reflexivity.
  - reflexivity.
  - split; [exact Body | exact Sent].
Defined.

End MoreRuns.
